(** * Volatility-regime adaptive portfolio optimizer: a shallow embedding

    The Python sources [src/market_analyzer.py], [src/portfolio_optimizer.py],
    [src/strategy_engine.py], [src/backtester.py] and [config/settings.py]
    are embedded as Rocq functions, one per Python function, in modules named
    after the source files.

    Numbers.  Python floats are idealised as exact rationals ([Q], compared
    with [==]); a NaN cell of a pandas object is [None].  Rounding is
    therefore outside the model: equalities proved here are the exact
    identities the floating-point code approximates.

    Effects.  [print] and calls that a property needs to observe are recorded
    in a trace; a Python exception is the [Raise] outcome. *)

From Stdlib Require Import QArith Qabs Qminmax List String Bool Lia Lqa ZArith.
Import ListNotations.
Open Scope string_scope.
Open Scope list_scope.
Open Scope Q_scope.

(* ================================================================= *)
(** ** Python runtime: outcomes, trace, and a small monad            *)
(* ================================================================= *)

Module Py.

Inductive exn : Type :=
| ValueError (msg : string)
| TypeError (msg : string)
| RuntimeError (msg : string).

Inductive outcome (A : Type) : Type :=
| Ret (a : A)
| Raise (e : exn).
Arguments Ret {A} a.
Arguments Raise {A} e.

(** What a run leaves behind besides its value: text sent to [print] and
    the names of the callees that were entered. *)
Inductive event : Type :=
| Printed (msg : string)
| Called (callee : string).

Definition M (A : Type) : Type := (outcome A * list event)%type.

Definition ret {A} (a : A) : M A := (Ret a, []).
Definition raise {A} (e : exn) : M A := (Raise e, []).
Definition print (msg : string) : M unit := (Ret tt, [Printed msg]).
Definition enter (callee : string) : M unit := (Ret tt, [Called callee]).

Definition bind {A B} (m : M A) (k : A -> M B) : M B :=
  match m with
  | (Ret a, t1) => let (r, t2) := k a in (r, t1 ++ t2)
  | (Raise e, t1) => (Raise e, t1)
  end.

(** [try: m  except Exception as e: h e] *)
Definition try_except {A} (m : M A) (h : exn -> M A) : M A :=
  match m with
  | (Ret a, t1) => (Ret a, t1)
  | (Raise e, t1) => let (r, t2) := h e in (r, t1 ++ t2)
  end.

Definition lift {A} (o : outcome A) : M A := (o, []).

Definition value {A} (m : M A) : outcome A := fst m.
Definition trace {A} (m : M A) : list event := snd m.

Definition is_call (callee : string) (e : event) : bool :=
  match e with
  | Called c => String.eqb c callee
  | Printed _ => false
  end.

(** Number of times [callee] was entered during a run. *)
Definition calls_to (callee : string) (t : list event) : nat :=
  List.length (filter (is_call callee) t).

End Py.

Notation "x <- m ;; k" := (Py.bind m (fun x => k))
(at level 61, m at next level, right associativity).
Notation "m ;;; k" := (Py.bind m (fun _ => k))
(at level 61, right associativity).

(* ================================================================= *)
(** ** numpy / pandas helpers on exact rationals                     *)
(* ================================================================= *)

Module Np.

Definition Qltb (a b : Q) : bool := negb (Qle_bool b a).
Definition Qneb (a b : Q) : bool := negb (Qeq_bool a b).

Definition of_nat (n : nat) : Q := inject_Z (Z.of_nat n).

(** [np.sum] *)
Fixpoint sum (l : list Q) : Q :=
  match l with
  | [] => 0
  | x :: r => x + sum r
  end.

(** [np.ones(n)] *)
Definition ones (n : nat) : list Q := repeat 1 n.

(** [a / c] for an array [a] and a scalar [c] *)
Definition div_scalar (a : list Q) (c : Q) : list Q := map (fun x => x / c) a.

(** [a * c] for an array [a] and a scalar [c] *)
Definition mul_scalar (a : list Q) (c : Q) : list Q := map (fun x => x * c) a.

(** [np.clip(a, lo, hi)], that is [minimum(maximum(a, lo), hi)] *)
Definition clip (a : list Q) (lo hi : Q) : list Q :=
  map (fun x => Qmin (Qmax x lo) hi) a.

(** element-wise binary operation on arrays of one shape *)
Fixpoint zip_with (f : Q -> Q -> Q) (a b : list Q) : list Q :=
  match a, b with
  | x :: a', y :: b' => f x y :: zip_with f a' b'
  | _, _ => []
  end.

(** [np.ones(n) / n]: the equal-weight vector *)
Definition equal_weights (n : nat) : list Q := div_scalar (ones n) (of_nat n).

End Np.

(* ================================================================= *)
(** ** config/settings.py                                            *)
(* ================================================================= *)

Module Settings.

Definition ASSET_SYMBOLS : list string :=
  ["SPY"; "QQQ"; "GLD"; "TLT"; "EEM"; "VNQ"].

Definition VOL_WINDOW : nat := 20.
Definition REGIME_THRESHOLD_HIGH_VOL : Q := 15 # 1000.
Definition REGIME_THRESHOLD_LOW_VOL : Q := 5 # 1000.

Definition OPTIMIZATION_WINDOW : nat := 60.
Definition RISK_FREE_RATE_ANNUAL : Q := 2 # 100.
Definition TARGET_RISK_ANNUAL : Q := 15 # 100.
Definition LAMBDA_RISK_AVERSION : Q := 5 # 10.

Definition INITIAL_CAPITAL : Q := 1000000000.
Definition TRANSACTION_COST_BPS : Q := 2.
Definition SLIPPAGE_BPS : Q := 1.

End Settings.

(* ================================================================= *)
(** ** src/market_analyzer.py                                        *)
(* ================================================================= *)

Module MarketAnalyzer.

(** A DataFrame of float columns; a cell is [None] when it is NaN. *)
Definition Frame : Type := list (string * list (option Q)).

Fixpoint get_column (df : Frame) (name : string) : option (list (option Q)) :=
  match df with
  | [] => None
  | (c, cells) :: rest =>
      if String.eqb c name then Some cells else get_column rest name
  end.

(** [df[vol_col] >= t]: a comparison with NaN is False. *)
Definition ge_mask (col : list (option Q)) (t : Q) : list bool :=
  map (fun c => match c with Some v => Qle_bool t v | None => false end) col.

(** [df[vol_col] <= t] *)
Definition le_mask (col : list (option Q)) (t : Q) : list bool :=
  map (fun c => match c with Some v => Qle_bool v t | None => false end) col.

(** [series[mask] = label]: boolean-mask assignment. *)
Fixpoint assign_where (series : list string) (mask : list bool)
         (label : string) : list string :=
  match series, mask with
  | x :: series', b :: mask' =>
      (if b then label else x) :: assign_where series' mask' label
  | _, _ => series
  end.

Definition identify_regimes (df : Frame) (vol_col : string)
           (high_threshold low_threshold : Q) : Py.M (list string) :=
  match get_column df vol_col with
  | None =>
      Py.raise (Py.ValueError "DataFrame must contain the volatility column.")
  | Some vol =>
      let regime := repeat "Normal_Vol" (List.length vol) in
      let regime := assign_where regime (ge_mask vol high_threshold) "High_Vol" in
      let regime := assign_where regime (le_mask vol low_threshold) "Low_Vol" in
      Py.print "Identified volatility regimes." ;;;
      Py.ret regime
  end.

End MarketAnalyzer.

(* ================================================================= *)
(** ** src/portfolio_optimizer.py                                    *)
(* ================================================================= *)

Module PortfolioOptimizer.

(** A DataFrame of returns: one label per column, one list of cells per row
    ([R] rows of [N] cells).  *)
Record DataFrame : Type := mkDataFrame {
  columns : list string;
  rows : list (list Q)
}.

(** [df.empty]: true when any axis has length zero. *)
Definition empty (df : DataFrame) : bool :=
  (List.length (rows df) =? 0)%nat || (List.length (columns df) =? 0)%nat.

(** [df.shape[1]] *)
Definition shape1 (df : DataFrame) : nat := List.length (columns df).

Definition column (df : DataFrame) (j : nat) : list Q :=
  map (fun r => nth j r 0) (rows df).

Definition mean_of (xs : list Q) : Q := Np.sum xs / Np.of_nat (List.length xs).

(** [df.mean()]: per-column arithmetic mean. *)
Definition DataFrame_mean (df : DataFrame) : list Q :=
  map (fun j => mean_of (column df j)) (seq 0 (shape1 df)).

(** Sample covariance with [ddof = 1]; NaN when fewer than two rows. *)
Definition cov_of (xs ys : list Q) : option Q :=
  if (List.length xs <=? 1)%nat then None
  else Some (Np.sum (Np.zip_with (fun x y => (x - mean_of xs) * (y - mean_of ys)) xs ys)
             / (Np.of_nat (List.length xs) - 1)).

Definition Matrix : Type := list (list (option Q)).

(** [df.cov()] *)
Definition DataFrame_cov (df : DataFrame) : Matrix :=
  map (fun i => map (fun j => cov_of (column df i) (column df j))
                    (seq 0 (shape1 df)))
      (seq 0 (shape1 df)).

(** A labelled square frame, the value of [calculate_covariance_matrix];
    [pd.DataFrame()] is the frame without labels and cells. *)
Record CovFrame : Type := mkCovFrame {
  cov_labels : list string;
  cov_cells : Matrix
}.

Definition empty_DataFrame : CovFrame := mkCovFrame [] [].

(** A labelled vector, the value of [calculate_expected_returns];
    [pd.Series(dtype=float)] is the vector without entries. *)
Definition LabelledSeries : Type := list (string * Q).

Definition empty_Series : LabelledSeries := [].

Definition calculate_covariance_matrix (returns : DataFrame) : Py.M CovFrame :=
  if empty returns then Py.ret empty_DataFrame
  else Py.ret (mkCovFrame (columns returns) (DataFrame_cov returns)).

Definition calculate_expected_returns (returns : DataFrame) : Py.M LabelledSeries :=
  if empty returns then Py.ret empty_Series
  else Py.ret (combine (columns returns) (DataFrame_mean returns)).

(** *** What is handed to [scipy.optimize.minimize] *)

(** The two objective closures of the source, kept as data: the solver that
    evaluates them is outside the repository. *)
Inductive objective : Type :=
| portfolio_variance (cov_mat : Matrix)
    (* lambda w: sqrt(w.T @ cov_mat @ w) *)
| utility_function (exp_ret : list Q) (cov_mat : Matrix) (lambda_val : Q).
    (* lambda w: -(w.T @ exp_ret - 0.5 * lambda_val * w.T @ cov_mat @ w) *)

Inductive constraint_fun : Type :=
| sum_minus_one                                         (* np.sum(w) - 1 *)
| volatility_minus_target (cov_mat : Matrix) (target_risk : Q).

(** [{'type': ..., 'fun': ...}] *)
Record constraint_dict : Type := mkConstraint {
  c_type : string;
  c_fun : constraint_fun
}.

(** An element of the sequence passed as [constraints=]: a dictionary, or,
    after [list(cons)] was applied to a single dictionary, one of its keys. *)
Inductive cons_item : Type :=
| Item_dict (d : constraint_dict)
| Item_key (k : string).

(** The value bound to [cons]: a tuple of items, or one bare dictionary (the
    parenthesised dictionary of the risk-aversion branch is not a tuple). *)
Inductive cons_value : Type :=
| Cons_tuple (items : list cons_item)
| Cons_dict (d : constraint_dict).

(** [len(cons)] *)
Definition cons_len (c : cons_value) : nat :=
  match c with
  | Cons_tuple items => List.length items
  | Cons_dict _ => 2
  end.

(** [list(cons) if cons else []]: iterating a dictionary yields its keys. *)
Definition cons_to_list (c : cons_value) : list cons_item :=
  match c with
  | Cons_tuple items => items
  | Cons_dict _ => [Item_key "type"; Item_key "fun"]
  end.

(** [cons[0]['fun'](w) == 0], defined for the only shape on which the source
    evaluates it: a tuple whose first item is the sum-to-one dictionary. *)
Definition cons0_fun_is_zero (c : cons_value) (w : list Q) : bool :=
  match c with
  | Cons_tuple (Item_dict (mkConstraint _ sum_minus_one) :: _) =>
      Qeq_bool (Np.sum w - 1) 0
  | _ => false
  end.

(** [scipy.optimize.OptimizeResult], the fields the source reads. *)
Record OptimizeResult : Type := mkResult {
  success : bool;
  x : list Q;
  message : string
}.

(** The [constraints] argument of [mean_variance_optimization]: [None] or a
    dictionary of flags. *)
Definition flags : Type := option (list (string * bool)).

Fixpoint dict_get (d : list (string * bool)) (k : string) (default : bool) : bool :=
  match d with
  | [] => default
  | (k', v) :: rest => if String.eqb k' k then v else dict_get rest k default
  end.

(** [constraints and constraints.get(k, False)] *)
Definition flag_set (constraints : flags) (k : string) : bool :=
  match constraints with
  | None => false
  | Some [] => false
  | Some d => dict_get d k false
  end.

Definition is_some {A} (o : option A) : bool :=
  match o with Some _ => true | None => false end.

Definition annualization_factor : Q := 252.

Definition scale_matrix (m : Matrix) (c : Q) : Matrix :=
  map (map (option_map (fun v => v * c))) m.

(** The four arguments of the [minimize] call. *)
Record Problem : Type := mkProblem {
  objective_function : objective;
  initial_weights : list Q;
  bounds : option (list (Q * Q));
  cons : cons_value
}.

(** Source lines 51-97 of [mean_variance_optimization]: the objective, the
    starting point, the bounds and the constraints, or the [ValueError] when
    neither objective parameter is given. *)
Definition formulate
           (expected_returns : list Q) (cov_matrix : Matrix)
           (target_risk : option Q) (risk_aversion_lambda : option Q)
           (constraints : flags) : Py.M Problem :=
  let num_assets := List.length expected_returns in
  let initial_weights := Np.div_scalar (Np.ones num_assets) (Np.of_nat num_assets) in
  let annual_expected_returns := Np.mul_scalar expected_returns annualization_factor in
  let annual_cov_matrix := scale_matrix cov_matrix annualization_factor in
  let sum_to_one := mkConstraint "eq" sum_minus_one in
  oc <- match target_risk, risk_aversion_lambda with
        | Some tr, _ =>
            Py.ret (portfolio_variance annual_cov_matrix,
                    Cons_tuple [Item_dict sum_to_one;
                                Item_dict (mkConstraint "eq"
                                  (volatility_minus_target annual_cov_matrix tr))])
        | None, Some lam =>
            Py.ret (utility_function annual_expected_returns annual_cov_matrix lam,
                    Cons_dict sum_to_one)
        | None, None =>
            Py.raise (Py.ValueError
              "Either 'target_risk' or 'risk_aversion_lambda' must be provided.")
        end ;;
  let objective_function := fst oc in
  let cons := snd oc in
  let bounds :=
    if flag_set constraints "long_only"
    then Some (repeat (0, 1) num_assets) else None in
  let cons :=
    if flag_set constraints "sum_to_one"
       && negb (is_some target_risk
                && (0 <? cons_len cons)%nat
                && cons0_fun_is_zero cons initial_weights)
    then
      if negb (is_some target_risk)
      then Cons_tuple (cons_to_list cons ++ [Item_dict sum_to_one])
      else cons
    else cons in
  Py.ret (mkProblem objective_function initial_weights bounds cons).

Section Solver.

(** [scipy.optimize.minimize(fun, x0, method='SLSQP', bounds=, constraints=)]:
    an external solver.  It either returns an [OptimizeResult] or raises. *)
Variable minimize :
  objective -> list Q -> option (list (Q * Q)) -> cons_value ->
  Py.outcome OptimizeResult.

(** Source lines 99-115: the [try] around the solver call and the three
    ways out of it. *)
Definition solve (num_assets : nat) (p : Problem) : Py.M (list Q) :=
  Py.try_except
    (Py.enter "minimize" ;;;
     result <- Py.lift (minimize (objective_function p) (initial_weights p)
                                 (bounds p) (cons p)) ;;
     if success result then
       let optimal_weights := x result in
       let optimal_weights := Np.clip optimal_weights 0 1 in
       let optimal_weights :=
         if Np.Qneb (Np.sum optimal_weights) 0
         then Np.div_scalar optimal_weights (Np.sum optimal_weights)
         else Np.div_scalar (Np.ones num_assets) (Np.of_nat num_assets) in
       Py.ret optimal_weights
     else
       Py.print "Optimization failed" ;;;
       Py.ret (Np.div_scalar (Np.ones num_assets) (Np.of_nat num_assets)))
    (fun e =>
       Py.print "Error during optimization" ;;;
       Py.ret (Np.ones num_assets)).

Definition mean_variance_optimization
           (expected_returns : list Q) (cov_matrix : Matrix)
           (target_risk : option Q) (risk_aversion_lambda : option Q)
           (constraints : flags) : Py.M (list Q) :=
  let num_assets := List.length expected_returns in
  if (num_assets =? 0)%nat then Py.ret []
  else
    p <- formulate expected_returns cov_matrix target_risk risk_aversion_lambda
           constraints ;;
    solve num_assets p.

End Solver.

End PortfolioOptimizer.

(* ================================================================= *)
(** ** src/strategy_engine.py                                        *)
(* ================================================================= *)

Module StrategyEngine.

Import PortfolioOptimizer.

Section Solver.

Variable minimize :
  objective -> list Q -> option (list (Q * Q)) -> cons_value ->
  Py.outcome OptimizeResult.

Definition long_only_sum_to_one : flags :=
  Some [("sum_to_one", true); ("long_only", true)].

(** The [if / elif / else] over the regime label, with the call it makes. *)
Definition dispatch (current_regime : string)
           (expected_returns : list Q) (cov_matrix : Matrix) : Py.M (list Q) :=
  if String.eqb current_regime "High_Vol" then
    Py.print "Generating weights for HIGH VOLATILITY regime." ;;;
    Py.enter "mean_variance_optimization" ;;;
    mean_variance_optimization minimize expected_returns cov_matrix
      (Some (Settings.TARGET_RISK_ANNUAL * (5 # 10))) None long_only_sum_to_one
  else if String.eqb current_regime "Low_Vol" then
    Py.print "Generating weights for LOW VOLATILITY regime." ;;;
    Py.enter "mean_variance_optimization" ;;;
    mean_variance_optimization minimize expected_returns cov_matrix
      None (Some (Settings.LAMBDA_RISK_AVERSION * (15 # 10))) long_only_sum_to_one
  else
    Py.print "Generating weights for NORMAL VOLATILITY regime." ;;;
    Py.enter "mean_variance_optimization" ;;;
    mean_variance_optimization minimize expected_returns cov_matrix
      None (Some Settings.LAMBDA_RISK_AVERSION) long_only_sum_to_one.

(** Lines 48-53: clip to [0,1], then re-normalise or fall back. *)
Definition clip_and_renormalize (num_assets : nat) (weights : list Q)
  : Py.M (list Q) :=
  let weights := Np.clip weights 0 1 in
  if Np.Qneb (Np.sum weights) 0 then
    Py.ret (Np.div_scalar weights (Np.sum weights))
  else
    Py.print "Warning: Optimization failed or resulted in zero sum, defaulting to equal weights." ;;;
    Py.ret (Np.div_scalar (Np.ones num_assets) (Np.of_nat num_assets)).

Definition generate_regime_specific_weights
           (current_regime : string) (lookback_returns : DataFrame)
  : Py.M (list Q) :=
  let num_assets := shape1 lookback_returns in
  let weights := Np.div_scalar (Np.ones num_assets) (Np.of_nat num_assets) in
  if empty lookback_returns then
    Py.print (String.append "Warning: No lookback returns for regime "
                (String.append current_regime ". Returning equal weights.")) ;;;
    Py.ret weights
  else
    let expected_returns := DataFrame_mean lookback_returns in
    let cov_matrix := DataFrame_cov lookback_returns in
    weights <- dispatch current_regime expected_returns cov_matrix ;;
    clip_and_renormalize num_assets weights.

End Solver.

End StrategyEngine.

(* ================================================================= *)
(** ** src/backtester.py                                             *)
(* ================================================================= *)

Module Backtester.

(** A pandas Series of floats indexed by asset symbol, read by label.  Its
    index is the asset universe, which the functions below receive as
    [asset_symbols]; reductions run over that index. *)
Definition Series : Type := string -> Q.

(** [pd.Series(0.0, index=...)] *)
Definition zeros : Series := fun _ => 0.

(** [s[symbol] = v] *)
Definition set (s : Series) (symbol : string) (v : Q) : Series :=
  fun k => if String.eqb k symbol then v else s k.

(** [a * b], aligned on labels *)
Definition mul (a b : Series) : Series := fun k => a k * b k.

(** [s.values] in index order *)
Definition values (index : list string) (s : Series) : list Q := map s index.

(** [s.sum()] *)
Definition total (index : list string) (s : Series) : Q := Np.sum (values index s).

Record Config : Type := mkConfig {
  initial_capital : Q;
  transaction_cost_rate : Q;
  slippage_rate : Q
}.

(** [Backtester.__init__] *)
Definition init (initial_capital transaction_cost_bps slippage_bps : Q) : Config :=
  mkConfig initial_capital (transaction_cost_bps / 10000) (slippage_bps / 10000).

Definition default : Config :=
  init Settings.INITIAL_CAPITAL Settings.TRANSACTION_COST_BPS Settings.SLIPPAGE_BPS.

Definition _calculate_trade_cost (self : Config)
           (old_weights new_weights : list Q) (current_portfolio_value : Q) : Q :=
  let old_allocation := Np.mul_scalar old_weights current_portfolio_value in
  let new_allocation := Np.mul_scalar new_weights current_portfolio_value in
  let capital_traded :=
    Np.sum (map Qabs (Np.zip_with Qminus new_allocation old_allocation)) in
  let total_cost := capital_traded * (transaction_cost_rate self + slippage_rate self) in
  total_cost.

(** The variables the per-symbol loop mutates, and the symbols for which it
    printed the insufficient-cash warning. *)
Record Book : Type := mkBook {
  current_holdings : Series;
  cash_balance : Q;
  skipped : list string
}.

(** Body of [for symbol in asset_symbols_ordered] (source lines 77-88). *)
Definition trade_symbol (shares_to_trade current_prices : Series)
           (b : Book) (symbol : string) : Book :=
  if Np.Qltb 0 (shares_to_trade symbol) then
    let buy_amount := shares_to_trade symbol * current_prices symbol in
    if Qle_bool buy_amount (cash_balance b) then
      mkBook (set (current_holdings b) symbol
                  (current_holdings b symbol + shares_to_trade symbol))
             (cash_balance b - buy_amount)
             (skipped b)
    else
      mkBook (current_holdings b) (cash_balance b) (skipped b ++ [symbol])
  else if Np.Qltb (shares_to_trade symbol) 0 then
    let sell_amount := shares_to_trade symbol * current_prices symbol in
    mkBook (set (current_holdings b) symbol
                (current_holdings b symbol + shares_to_trade symbol))
           (cash_balance b - sell_amount)
           (skipped b)
  else b.

(** Cash plus holdings marked to market at [prices]. *)
Definition worth (index : list string) (prices : Series) (b : Book) : Q :=
  cash_balance b + total index (mul (current_holdings b) prices).

Definition execute_trades (asset_symbols_ordered : list string)
           (shares_to_trade current_prices : Series) (b : Book) : Book :=
  fold_left (trade_symbol shares_to_trade current_prices) asset_symbols_ordered b.

(** One dictionary appended to [portfolio_history_list]. *)
Record Snapshot : Type := mkSnapshot {
  Date : string;
  Total_Value : Q;
  Cash : Q;
  Asset_Value : Q;
  Weight : list (string * Q)
}.

(** The loop-carried variables of [run_backtest]. *)
Record State : Type := mkState {
  holdings : Series;
  cash : Q;
  previous_weights : Series;
  trade_cost : Q;
  portfolio_history_list : list Snapshot
}.

(** A row of [df_merged] after [dropna]: every price and weight present.
    The columns of the price table and of the weight table are the asset
    universe, in its order, so that reading a weight by label and reading
    [target_weights.values] by position agree.  Prices are non-zero: the
    share counts divide by them, and a division by zero (inf or NaN in the
    source) has no counterpart in the rationals; statements that depend on a
    share count carry the non-zero price as a hypothesis. *)
Record Row : Type := mkRow {
  date : string;
  current_prices : Series;
  target_weights : Series
}.

(** What one date's iteration computes (source lines 65-107). *)
Record Step : Type := mkStep {
  value_before : Q;          (* portfolio_value *)
  cost : Q;                  (* trade_cost *)
  deltas : Series;           (* shares_to_trade *)
  book : Book;               (* holdings, cash and warnings after the loop *)
  snapshot : Snapshot;
  next_weights : Series      (* previous_weights for the next date *)
}.

Section Universe.

(** [settings.ASSET_SYMBOLS] *)
Variable asset_symbols_ordered : list string.
Variable self : Config.

Definition process_date (st : State) (row : Row) : Step :=
  let current_asset_values := mul (holdings st) (current_prices row) in
  let portfolio_value := total asset_symbols_ordered current_asset_values + cash st in
  let trade_cost :=
    _calculate_trade_cost self
      (values asset_symbols_ordered (previous_weights st))
      (values asset_symbols_ordered (target_weights row))
      portfolio_value in
  let portfolio_value_after_cost := portfolio_value - trade_cost in
  let cash_balance := cash st - trade_cost in
  let target_shares : Series :=
    fun s => (target_weights row s * portfolio_value_after_cost) / current_prices row s in
  let shares_to_trade : Series := fun s => target_shares s - holdings st s in
  let b := execute_trades asset_symbols_ordered shares_to_trade (current_prices row)
             (mkBook (holdings st) cash_balance []) in
  let final_asset_value :=
    total asset_symbols_ordered (mul (current_holdings b) (current_prices row)) in
  let final_portfolio_value := final_asset_value + Backtester.cash_balance b in
  let weight_of : Series :=
    fun s => if Np.Qneb final_portfolio_value 0
             then current_asset_values s / final_portfolio_value else 0 in
  let current_weights := weight_of in
  let previous_weights :=
    if Qeq_bool final_portfolio_value 0 then zeros else current_weights in
  mkStep portfolio_value trade_cost shares_to_trade b
         (mkSnapshot (date row) final_portfolio_value (Backtester.cash_balance b)
                     final_asset_value
                     (map (fun s => (s, weight_of s)) asset_symbols_ordered))
         previous_weights.

Definition advance (st : State) (row : Row) : State :=
  let r := process_date st row in
  mkState (current_holdings (book r)) (Backtester.cash_balance (book r))
          (next_weights r) (cost r)
          (portfolio_history_list st ++ [snapshot r]).

(** A row of the merged price and weight tables before [dropna]. *)
Record RawRow : Type := mkRawRow {
  raw_date : string;
  raw_prices : string -> option Q;
  raw_weights : string -> option Q
}.

Definition isnull_any (cells : string -> option Q) : bool :=
  existsb (fun s => match cells s with None => true | Some _ => false end)
          asset_symbols_ordered.

Definition unwrap (cells : string -> option Q) : Series :=
  fun s => match cells s with Some v => v | None => 0 end.

(** [df_merged.dropna()] *)
Definition dropna (rows : list RawRow) : list RawRow :=
  filter (fun r => negb (isnull_any (raw_prices r) || isnull_any (raw_weights r))) rows.

Definition initial_state : State :=
  mkState zeros (initial_capital self) zeros 0 [].

(** The [for ... in df_merged.iterrows()] loop. *)
Definition iterate (st : State) (rows : list RawRow) : State :=
  fold_left
    (fun st r =>
       if isnull_any (raw_prices r) then st
       else advance st (mkRow (raw_date r) (unwrap (raw_prices r)) (unwrap (raw_weights r))))
    rows st.

(** The history of a run whose merged table keeps at least one row after
    [dropna].  On a table in which no row is complete the source does not
    reach the loop: formatting the first date of the empty index for the
    start-up message raises; statements about this function carry
    [dropna df_merged <> []]. *)
Definition run_backtest (df_merged : list RawRow) : list Snapshot :=
  portfolio_history_list (iterate initial_state (dropna df_merged)).

End Universe.

End Backtester.

(* ================================================================= *)
(** ** Concrete inputs used by the examples below                    *)
(* ================================================================= *)

Module Scenario.

Import PortfolioOptimizer.

(** A solver run that raises, as SLSQP does when an item of [constraints]
    is not a dictionary. *)
Definition solver_raises
  : objective -> list Q -> option (list (Q * Q)) -> cons_value ->
    Py.outcome OptimizeResult :=
  fun _ _ _ _ => Py.Raise (Py.TypeError "Constraints must be defined using a dictionary.").

(** A solver run that ends without convergence. *)
Definition solver_fails
  : objective -> list Q -> option (list (Q * Q)) -> cons_value ->
    Py.outcome OptimizeResult :=
  fun _ x0 _ _ => Py.Ret (mkResult false x0 "Iteration limit reached").

(** A solver run that converges to [w]. *)
Definition solver_returns (w : list Q)
  : objective -> list Q -> option (list (Q * Q)) -> cons_value ->
    Py.outcome OptimizeResult :=
  fun _ _ _ _ => Py.Ret (mkResult true w "Optimization terminated successfully").

(** Two assets, three daily returns each. *)
Definition window_AB : DataFrame :=
  mkDataFrame ["A"; "B"]
    [[1 # 100; 2 # 100]; [-1 # 100; 1 # 100]; [2 # 100; -1 # 100]].

(** The same two columns and no row. *)
Definition window_no_rows : DataFrame := mkDataFrame ["A"; "B"] [].

Definition cov_AB : Matrix :=
  [[Some (4 # 10000); Some (1 # 10000)]; [Some (1 # 10000); Some (9 # 10000)]].

(** A volatility column whose only value equals both thresholds. *)
Definition frame_at_threshold : MarketAnalyzer.Frame :=
  [("Volatility", [Some (1 # 100)])].

Definition frame_mixed : MarketAnalyzer.Frame :=
  [("Volatility", [Some (2 # 100); Some (1 # 1000); Some (1 # 100); None])].

(** Backtests with zero cost rates and capital 100. *)
Definition frictionless : Backtester.Config := Backtester.init 100 0 0.

Definition series2 (a b : Q) : Backtester.Series :=
  fun s => if String.eqb s "A" then a else if String.eqb s "B" then b else 0.

(** Unit prices, all of the capital targeted at [A]. *)
Definition row_all_in_A : Backtester.Row :=
  Backtester.mkRow "2020-01-02" (series2 10 1) (series2 1 0).

(** Unit prices, targets 60% + 60%: the two buys together exceed the cash. *)
Definition row_overweight : Backtester.Row :=
  Backtester.mkRow "2020-01-02" (series2 1 1) (series2 (6 # 10) (6 # 10)).

(** Prices 100 and 50, targets 50% + 50%. *)
Definition row_balanced : Backtester.Row :=
  Backtester.mkRow "2020-01-02" (series2 100 50) (series2 (1 # 2) (1 # 2)).

End Scenario.

(* ================================================================= *)
(** ** src/metrics_calculator.py (the functions free of square roots) *)
(* ================================================================= *)

Module Metrics.

(** A float cell that need not be finite.  The value series handed to these
    functions are finite ([list Q]); infinities and NaN arise from a division
    by zero, from an empty reduction, or from an explicit [np.inf] /
    [np.nan].  A zero divisor is taken as positive zero. *)
Inductive float : Type :=
| Fin (q : Q)
| PosInf
| NegInf
| NaN.

Definition isnan (v : float) : bool :=
  match v with NaN => true | _ => false end.

(** [a / b] on finite floats *)
Definition div (a b : Q) : float :=
  if Qeq_bool b 0 then
    if Qeq_bool a 0 then NaN else if Np.Qltb 0 a then PosInf else NegInf
  else Fin (a / b).

(** [v - c] for a finite scalar [c] *)
Definition sub_scalar (v : float) (c : Q) : float :=
  match v with Fin q => Fin (q - c) | _ => v end.

Fixpoint pct_change_from (previous : Q) (series : list Q) : list float :=
  match series with
  | [] => []
  | p :: rest => sub_scalar (div p previous) 1 :: pct_change_from p rest
  end.

(** [series.pct_change()]: [series / series.shift(1) - 1], NaN in the first
    position. *)
Definition pct_change (series : list Q) : list float :=
  match series with
  | [] => []
  | p :: rest => NaN :: pct_change_from p rest
  end.

(** [s.dropna()] *)
Definition dropna (s : list float) : list float :=
  filter (fun v => negb (isnan v)) s.

Definition calculate_returns (series : list Q) : list float :=
  dropna (pct_change series).

Fixpoint cumprod_from (acc : Q) (a : list Q) : list Q :=
  match a with
  | [] => []
  | v :: rest => acc * v :: cumprod_from (acc * v) rest
  end.

(** [a.cumprod()] *)
Definition cumprod (a : list Q) : list Q :=
  match a with
  | [] => []
  | v :: rest => v :: cumprod_from v rest
  end.

Definition calculate_cumulative_returns (returns : list Q) : list Q :=
  cumprod (map (fun r => 1 + r) returns).

Fixpoint cummax_from (m : Q) (a : list Q) : list Q :=
  match a with
  | [] => []
  | v :: rest => Qmax m v :: cummax_from (Qmax m v) rest
  end.

(** [a.cummax()] *)
Definition cummax (a : list Q) : list Q :=
  match a with
  | [] => []
  | v :: rest => v :: cummax_from v rest
  end.

(** element-wise [num / den] *)
Fixpoint div_series (num den : list Q) : list float :=
  match num, den with
  | n :: num', d :: den' => div n d :: div_series num' den'
  | _, _ => []
  end.

(** The smaller of two cells, a NaN being skipped. *)
Definition min2 (a b : float) : float :=
  match a, b with
  | NaN, _ => b
  | _, NaN => a
  | NegInf, _ => NegInf
  | _, NegInf => NegInf
  | PosInf, _ => b
  | _, PosInf => a
  | Fin u, Fin v => Fin (Qmin u v)
  end.

(** [s.min()]: NaN cells are skipped; NaN when nothing is left. *)
Definition series_min (s : list float) : float := fold_right min2 NaN s.

Definition calculate_max_drawdown (portfolio_values : list Q) : float :=
  match portfolio_values with
  | [] => NaN
  | _ :: _ =>
      let running_max := cummax portfolio_values in
      let drawdowns :=
        div_series (Np.zip_with Qminus portfolio_values running_max) running_max in
      let max_dd := series_min drawdowns in
      max_dd
  end.

(** [s.mean()] of a finite series; NaN when it is empty. *)
Definition mean (s : list Q) : float :=
  match s with
  | [] => NaN
  | _ :: _ => Fin (Np.sum s / Np.of_nat (List.length s))
  end.

(** [v > 0] *)
Definition gt0 (v : float) : bool :=
  match v with
  | Fin q => Np.Qltb 0 q
  | PosInf => true
  | NegInf | NaN => false
  end.

(** [v == 0] *)
Definition eq0 (v : float) : bool :=
  match v with Fin q => Qeq_bool q 0 | _ => false end.

(** [abs(v)] *)
Definition fabs (v : float) : float :=
  match v with
  | Fin q => Fin (Qabs q)
  | PosInf | NegInf => PosInf
  | NaN => NaN
  end.

(** [v * c] for a finite scalar [c] *)
Definition mul_scalar (v : float) (c : Q) : float :=
  match v with
  | Fin q => Fin (q * c)
  | NaN => NaN
  | PosInf =>
      if Qeq_bool c 0 then NaN else if Np.Qltb 0 c then PosInf else NegInf
  | NegInf =>
      if Qeq_bool c 0 then NaN else if Np.Qltb 0 c then NegInf else PosInf
  end.

(** [a / b] on floats *)
Definition fdiv (a b : float) : float :=
  match a, b with
  | NaN, _ | _, NaN => NaN
  | Fin u, Fin v => div u v
  | Fin _, (PosInf | NegInf) => Fin 0
  | PosInf, Fin v => if Np.Qltb v 0 then NegInf else PosInf
  | NegInf, Fin v => if Np.Qltb v 0 then PosInf else NegInf
  | (PosInf | NegInf), (PosInf | NegInf) => NaN
  end.

Definition calculate_calmar_ratio (portfolio_returns : list Q)
           (max_drawdown : float) (annualization_factor : Q) : float :=
  if eq0 max_drawdown then
    if gt0 (mean portfolio_returns) then PosInf else NaN
  else
    let annualized_return := mul_scalar (mean portfolio_returns) annualization_factor in
    let calmar := fdiv annualized_return (fabs max_drawdown) in
    calmar.

(** Finite cells of a series, when all of them are finite. *)
Fixpoint finite (s : list float) : option (list Q) :=
  match s with
  | [] => Some []
  | Fin q :: rest => option_map (cons q) (finite rest)
  | _ :: _ => None
  end.

End Metrics.

(* ================================================================= *)
(** ** The run: optimisation, then simulation                        *)
(* ================================================================= *)

Module Pipeline.

Import PortfolioOptimizer.

Section Run.

Variable minimize :
  objective -> list Q -> option (list (Q * Q)) -> cons_value ->
  Py.outcome OptimizeResult.

(** What the simulation stage hands back, and the stage itself: any
    consumer of the weight vectors, one per optimisation period.  The
    simulator of [src/backtester.py] is one such consumer. *)
Variable Outcome : Type.
Variable simulate : list (list Q) -> Py.M Outcome.

(** Modelled from the spec: the optimisation stage of a run (the script that
    drives a run is not part of the sources).  Section 2 of the spec: for
    each optimisation period the expected returns and the covariance go to
    the allocator together with the run's objective specification, and the
    allocator's weight vector becomes that period's row of target weights.
    The periods are served in order; an exception ends the run. *)
Fixpoint optimize_periods (periods : list (list Q * Matrix))
         (target_risk risk_aversion_lambda : option Q) (constraints : flags)
  : Py.M (list (list Q)) :=
  match periods with
  | [] => Py.ret []
  | (expected_returns, cov_matrix) :: rest =>
      w <- mean_variance_optimization minimize expected_returns cov_matrix
             target_risk risk_aversion_lambda constraints ;;
      ws <- optimize_periods rest target_risk risk_aversion_lambda constraints ;;
      Py.ret (w :: ws)
  end.

(** Modelled from the spec: the order of the two stages of a run (the script
    that drives a run is not part of the sources).  Section 2 of the spec:
    the per-period target weights are produced upstream and then handed,
    with the prices, to the simulator. *)
Definition run (periods : list (list Q * Matrix))
           (target_risk risk_aversion_lambda : option Q) (constraints : flags)
  : Py.M Outcome :=
  weights <- optimize_periods periods target_risk risk_aversion_lambda constraints ;;
  simulate weights.

End Run.

End Pipeline.

(* ================================================================= *)
(** ** Arithmetic of arrays                                          *)
(* ================================================================= *)

Lemma Qltb_lt (a b : Q) : Np.Qltb a b = true <-> a < b.
Proof.
  unfold Np.Qltb. rewrite negb_true_iff. split; intro H.
  - apply Qnot_le_lt. intro Hle. apply Qle_bool_iff in Hle. congruence.
  - destruct (Qle_bool b a) eqn:E; [|reflexivity].
    apply Qle_bool_iff in E. lra.
Qed.

Lemma Qltb_ge (a b : Q) : Np.Qltb a b = false <-> b <= a.
Proof.
  unfold Np.Qltb. rewrite negb_false_iff. apply Qle_bool_iff.
Qed.

Lemma Qle_bool_false (a b : Q) : Qle_bool a b = false <-> b < a.
Proof.
  split; intro H.
  - apply Qnot_le_lt. intro Hle. apply Qle_bool_iff in Hle. congruence.
  - destruct (Qle_bool a b) eqn:E; [|reflexivity].
    apply Qle_bool_iff in E. lra.
Qed.

Lemma Qneb_true (a b : Q) : Np.Qneb a b = true <-> ~ a == b.
Proof.
  unfold Np.Qneb. rewrite negb_true_iff. split; intro H.
  - now apply Qeq_bool_neq.
  - destruct (Qeq_bool a b) eqn:E; [|reflexivity].
    apply Qeq_bool_iff in E. contradiction.
Qed.

Lemma Qneb_false (a b : Q) : Np.Qneb a b = false <-> a == b.
Proof.
  unfold Np.Qneb. rewrite negb_false_iff. apply Qeq_bool_iff.
Qed.

(* ================================================================= *)
(** ** Backtester: the per-symbol loop                               *)
(* ================================================================= *)

Section TradeLoop.

Import Backtester.

Variables (shares_to_trade prices : Series).

Lemma execute_trades_app (l1 l2 : list string) (b : Book) :
  execute_trades (l1 ++ l2) shares_to_trade prices b
  = execute_trades l2 shares_to_trade prices
      (execute_trades l1 shares_to_trade prices b).
Proof. unfold execute_trades. apply fold_left_app. Qed.

Lemma set_same (h : Series) (s : string) (v : Q) : set h s v s = v.
Proof. unfold set. now rewrite String.eqb_refl. Qed.

Lemma set_other (h : Series) (s k : string) (v : Q) :
  k <> s -> set h s v k = h k.
Proof. intro H. unfold set. apply String.eqb_neq in H. now rewrite H. Qed.

(** Writing one holding moves the marked-to-market asset value by the change
    in that holding times its price. *)
Lemma total_set_notin (index : list string) (h : Series) (s : string) (v : Q) :
  ~ In s index ->
  total index (mul (set h s v) prices) == total index (mul h prices).
Proof.
  unfold total, values. induction index as [|k index IH]; intro Hn; simpl.
  - reflexivity.
  - rewrite IH by (intro; apply Hn; now right).
    unfold mul at 1 3. rewrite set_other by (intro; subst; apply Hn; now left).
    reflexivity.
Qed.

Lemma total_set_in (index : list string) (h : Series) (s : string) (v : Q) :
  NoDup index -> In s index ->
  total index (mul (set h s v) prices)
  == total index (mul h prices) + (v - h s) * prices s.
Proof.
  intros Hnd. induction Hnd as [|k index Hk Hnd IH]; intro Hin.
  - destruct Hin.
  - destruct (string_dec k s) as [->|Hne].
    + pose proof (total_set_notin index h s v Hk) as E.
      unfold total, values in *. simpl. rewrite E.
      unfold mul at 1 3. rewrite set_same. ring.
    + assert (Hin' : In s index) by (destruct Hin; [contradiction|assumption]).
      specialize (IH Hin'). unfold total, values in *. simpl. rewrite IH.
      unfold mul at 1 3. rewrite set_other by assumption. ring.
Qed.

Lemma trade_symbol_worth (index : list string) (b : Book) (s : string) :
  NoDup index -> In s index ->
  worth index prices (trade_symbol shares_to_trade prices b s) == worth index prices b.
Proof.
  intros Hnd Hin. unfold trade_symbol, worth.
  destruct (Np.Qltb 0 (shares_to_trade s)).
  - destruct (Qle_bool _ _); simpl; [|reflexivity].
    rewrite total_set_in by assumption. ring.
  - destruct (Np.Qltb (shares_to_trade s) 0); simpl; [|reflexivity].
    rewrite total_set_in by assumption. ring.
Qed.

Lemma execute_trades_worth (index symbols : list string) (b : Book) :
  NoDup index -> incl symbols index ->
  worth index prices (execute_trades symbols shares_to_trade prices b) == worth index prices b.
Proof.
  intros Hnd. revert b. induction symbols as [|s symbols IH]; intros b Hincl.
  - reflexivity.
  - unfold execute_trades in *. simpl. rewrite IH.
    + apply trade_symbol_worth; [assumption|]. apply Hincl. now left.
    + intros k Hk. apply Hincl. now right.
Qed.

(** The loop touches only the symbol it is at. *)
Lemma trade_symbol_other (b : Book) (s k : string) :
  k <> s ->
  current_holdings (trade_symbol shares_to_trade prices b s) k = current_holdings b k.
Proof.
  intro Hne. unfold trade_symbol.
  destruct (Np.Qltb 0 (shares_to_trade s)).
  - destruct (Qle_bool _ _); simpl; [now apply set_other|reflexivity].
  - destruct (Np.Qltb (shares_to_trade s) 0); simpl; [now apply set_other|reflexivity].
Qed.

End TradeLoop.

(** C4.  Per-symbol execution inside one date's loop.  Let [b] be the book
    when the loop reaches symbol [s] (after the symbols [pre] that precede
    it in the asset universe) and [b'] the book right after [s].
    - Share delta positive and cash at least the notional: the buy executes,
      holdings of [s] grow by the delta and cash drops by delta times price.
    - Share delta positive and cash below the notional: the buy is skipped
      whole; holdings and cash are unchanged and [s] is reported.
    - Share delta negative: the sell executes in full whatever the cash is;
      holdings of [s] shrink by the delta and cash grows by the proceeds.
    In every case no other symbol's holdings are touched. *)
Theorem C4_per_symbol_execution :
  forall (universe pre post : list string) (s : string)
         (shares_to_trade prices : Backtester.Series) (b0 : Backtester.Book),
    universe = pre ++ s :: post ->
    let b := Backtester.execute_trades pre shares_to_trade prices b0 in
    let b' := Backtester.execute_trades (pre ++ [s]) shares_to_trade prices b0 in
    let delta := shares_to_trade s in
    let notional := delta * prices s in
    Backtester.execute_trades universe shares_to_trade prices b0
      = Backtester.execute_trades post shares_to_trade prices b'
    /\ (0 < delta -> notional <= Backtester.cash_balance b ->
          Backtester.current_holdings b' s = Backtester.current_holdings b s + delta
          /\ Backtester.current_holdings b s < Backtester.current_holdings b' s
          /\ Backtester.cash_balance b' = Backtester.cash_balance b - notional
          /\ Backtester.skipped b' = Backtester.skipped b)
    /\ (0 < delta -> Backtester.cash_balance b < notional ->
          Backtester.current_holdings b' = Backtester.current_holdings b
          /\ Backtester.cash_balance b' = Backtester.cash_balance b
          /\ Backtester.skipped b' = Backtester.skipped b ++ [s])
    /\ (delta < 0 ->
          Backtester.current_holdings b' s = Backtester.current_holdings b s + delta
          /\ Backtester.current_holdings b' s < Backtester.current_holdings b s
          /\ Backtester.cash_balance b' = Backtester.cash_balance b - notional
          /\ (0 < prices s -> Backtester.cash_balance b < Backtester.cash_balance b')
          /\ Backtester.skipped b' = Backtester.skipped b)
    /\ (forall k, k <> s ->
          Backtester.current_holdings b' k = Backtester.current_holdings b k).
Proof.
  intros universe pre post s shares_to_trade prices b0 Hu b b' delta notional.
  assert (Hb' : b' = Backtester.trade_symbol shares_to_trade prices b s).
  { subst b b'. now rewrite execute_trades_app. }
  split; [|split; [|split; [|split]]].
  - subst universe b'.
    change (s :: post) with ([s] ++ post).
    now rewrite app_assoc, execute_trades_app.
  - intros Hpos Hcash. rewrite Hb'. unfold Backtester.trade_symbol.
    fold delta. apply Qltb_lt in Hpos. rewrite Hpos.
    fold notional. apply Qle_bool_iff in Hcash. rewrite Hcash. simpl.
    rewrite set_same. apply Qltb_lt in Hpos.
    repeat split; try reflexivity. lra.
  - intros Hpos Hcash. rewrite Hb'. unfold Backtester.trade_symbol.
    fold delta. apply Qltb_lt in Hpos. rewrite Hpos.
    fold notional. apply Qle_bool_false in Hcash. rewrite Hcash. simpl.
    repeat split; reflexivity.
  - intros Hneg. rewrite Hb'. unfold Backtester.trade_symbol. fold delta.
    assert (Hnp : Np.Qltb 0 delta = false) by (apply Qltb_ge; lra).
    rewrite Hnp. pose proof Hneg as Hneg'. apply Qltb_lt in Hneg'. rewrite Hneg'.
    simpl. rewrite set_same. fold notional.
    repeat split; try reflexivity; try lra.
    intro Hp. subst notional.
    assert (delta * prices s < 0).
    { setoid_replace (delta * prices s) with (- ((- delta) * prices s)) by ring.
      assert (0 < (- delta) * prices s) by (apply Qmult_lt_0_compat; lra). lra. }
    lra.
  - intros k Hk. rewrite Hb'. now apply trade_symbol_other.
Qed.

(** C1.  Conservation.  On a date on which no buy is skipped for lack of
    cash, cash after the step plus the holdings after the step valued at that
    date's prices equals cash before plus the holdings before valued at the
    same prices, minus the trade cost charged for that date; the cost is the
    one [_calculate_trade_cost] gives for the previous and the target
    weights, and the recorded total value is that same amount. *)
Theorem C1_conservation :
  forall (universe : list string) (self : Backtester.Config)
         (st : Backtester.State) (row : Backtester.Row),
    NoDup universe ->
    let r := Backtester.process_date universe self st row in
    let prices := Backtester.current_prices row in
    let value (h : Backtester.Series) :=
      Backtester.total universe (Backtester.mul h prices) in
    Backtester.skipped (Backtester.book r) = [] ->
    Backtester.cash_balance (Backtester.book r)
      + value (Backtester.current_holdings (Backtester.book r))
    == Backtester.cash st + value (Backtester.holdings st) - Backtester.cost r
    /\ Backtester.cost r
       = Backtester._calculate_trade_cost self
           (Backtester.values universe (Backtester.previous_weights st))
           (Backtester.values universe (Backtester.target_weights row))
           (value (Backtester.holdings st) + Backtester.cash st)
    /\ Backtester.Total_Value (Backtester.snapshot r)
       == Backtester.cash st + value (Backtester.holdings st) - Backtester.cost r.
Proof.
  intros universe self st row Hnd r prices value _.
  pose proof (execute_trades_worth (Backtester.deltas r) prices universe universe
                (Backtester.mkBook (Backtester.holdings st)
                                   (Backtester.cash st - Backtester.cost r) [])
                Hnd (incl_refl universe)) as Hw.
  unfold Backtester.worth in Hw. cbn [Backtester.cash_balance Backtester.current_holdings] in Hw.
  assert (Hb : Backtester.book r
               = Backtester.execute_trades universe (Backtester.deltas r) prices
                   (Backtester.mkBook (Backtester.holdings st)
                                      (Backtester.cash st - Backtester.cost r) []))
    by reflexivity.
  rewrite <- Hb in Hw.
  split; [|split].
  - subst value. cbv beta. lra.
  - reflexivity.
  - change (Backtester.Total_Value (Backtester.snapshot r))
      with (value (Backtester.current_holdings (Backtester.book r))
            + Backtester.cash_balance (Backtester.book r)).
    subst value. cbv beta. lra.
Qed.

Lemma NoDup_AB : NoDup ["A"; "B"].
Proof.
  constructor.
  - simpl. intros [H|[]]. discriminate H.
  - constructor; [intros []|constructor].
Qed.

(** C1 at a concrete date: universe [A; B], capital 100, prices 100 and 50,
    targets one half each; both buys are funded. *)
Lemma C1_conservation_witness :
  NoDup ["A"; "B"]
  /\ Backtester.skipped (Backtester.book
       (Backtester.process_date ["A"; "B"] Scenario.frictionless
          (Backtester.initial_state Scenario.frictionless) Scenario.row_balanced)) = []
  /\ Backtester.Total_Value (Backtester.snapshot
       (Backtester.process_date ["A"; "B"] Scenario.frictionless
          (Backtester.initial_state Scenario.frictionless) Scenario.row_balanced))
     == 100.
Proof.
  assert (Hs : Backtester.skipped (Backtester.book
       (Backtester.process_date ["A"; "B"] Scenario.frictionless
          (Backtester.initial_state Scenario.frictionless) Scenario.row_balanced)) = [])
    by reflexivity.
  split; [exact NoDup_AB|split; [exact Hs|]].
  rewrite (proj2 (proj2 (C1_conservation ["A"; "B"] Scenario.frictionless
                  (Backtester.initial_state Scenario.frictionless)
                  Scenario.row_balanced NoDup_AB Hs))).
  reflexivity.
Defined.

(** C4 at concrete books: a funded buy, a skipped buy and a sell. *)
Lemma C4_per_symbol_execution_witness :
  (* cash 100, buy 60 of B at price 1 after A bought 30: funded *)
  Backtester.cash_balance
    (Backtester.execute_trades ["A"; "B"] (Scenario.series2 30 60) (Scenario.series2 1 1)
       (Backtester.mkBook Backtester.zeros 100 []))
  = Backtester.cash_balance
      (Backtester.execute_trades ["A"] (Scenario.series2 30 60) (Scenario.series2 1 1)
         (Backtester.mkBook Backtester.zeros 100 []))
    - 60 * 1
  (* cash 100, buy 60 of B after A bought 60: skipped *)
  /\ Backtester.skipped
       (Backtester.execute_trades ["A"; "B"] (Scenario.series2 60 60) (Scenario.series2 1 1)
          (Backtester.mkBook Backtester.zeros 100 []))
     = Backtester.skipped
         (Backtester.execute_trades ["A"] (Scenario.series2 60 60) (Scenario.series2 1 1)
            (Backtester.mkBook Backtester.zeros 100 [])) ++ ["B"]
  (* cash 0, sell 5 of B *)
  /\ Backtester.cash_balance
       (Backtester.execute_trades ["A"; "B"] (Scenario.series2 0 (-5)) (Scenario.series2 1 1)
          (Backtester.mkBook (Scenario.series2 0 5) 0 []))
     = Backtester.cash_balance
         (Backtester.execute_trades ["A"] (Scenario.series2 0 (-5)) (Scenario.series2 1 1)
            (Backtester.mkBook (Scenario.series2 0 5) 0 []))
       - (-5) * 1.
Proof.
  split; [|split].
  - refine (proj1 (proj2 (proj2 (proj1 (proj2
      (C4_per_symbol_execution ["A"; "B"] ["A"] [] "B"
         (Scenario.series2 30 60) (Scenario.series2 1 1)
         (Backtester.mkBook Backtester.zeros 100 []) eq_refl)) _ _)))).
    + reflexivity.
    + vm_compute. discriminate.
  - refine (proj2 (proj2 (proj1 (proj2 (proj2
      (C4_per_symbol_execution ["A"; "B"] ["A"] [] "B"
         (Scenario.series2 60 60) (Scenario.series2 1 1)
         (Backtester.mkBook Backtester.zeros 100 []) eq_refl))) _ _))).
    + reflexivity.
    + reflexivity.
  - refine (proj1 (proj2 (proj2 (proj1 (proj2 (proj2 (proj2
      (C4_per_symbol_execution ["A"; "B"] ["A"] [] "B"
         (Scenario.series2 0 (-5)) (Scenario.series2 1 1)
         (Backtester.mkBook (Scenario.series2 0 5) 0 []) eq_refl)))) _)))).
    reflexivity.
Defined.

(** C5.  Execution within a date depends on the order of the asset universe.
    There is a two-asset input (capital 100, unit prices, targets 60% each,
    no costs) in which both symbols want a buy of 60, the cash of 100 funds
    either buy but not both, and only the first symbol in universe order is
    bought: with the order [A; B] the book ends holding 60 of A and none of
    B, with the order [B; A] it ends holding 60 of B and none of A. *)
Theorem C5_execution_order_sensitive :
  exists (self : Backtester.Config) (st : Backtester.State)
         (row : Backtester.Row) (a b : string),
    let p := Backtester.current_prices row in
    let r_ab := Backtester.process_date [a; b] self st row in
    let r_ba := Backtester.process_date [b; a] self st row in
    let h_ab := Backtester.current_holdings (Backtester.book r_ab) in
    let h_ba := Backtester.current_holdings (Backtester.book r_ba) in
    a <> b
    (* the same two buys are wanted under both orders *)
    /\ Backtester.deltas r_ab a == Backtester.deltas r_ba a
    /\ Backtester.deltas r_ab b == Backtester.deltas r_ba b
    /\ 0 < Backtester.deltas r_ab a /\ 0 < Backtester.deltas r_ab b
    (* cash after cost funds either buy, not both *)
    /\ Backtester.deltas r_ab a * p a <= Backtester.cash st - Backtester.cost r_ab
    /\ Backtester.deltas r_ab b * p b <= Backtester.cash st - Backtester.cost r_ab
    /\ Backtester.cash st - Backtester.cost r_ab
       < Backtester.deltas r_ab a * p a + Backtester.deltas r_ab b * p b
    (* order [a; b]: a bought, b skipped *)
    /\ Backtester.skipped (Backtester.book r_ab) = [b]
    /\ h_ab a == Backtester.holdings st a + Backtester.deltas r_ab a
    /\ h_ab b == Backtester.holdings st b
    (* order [b; a]: b bought, a skipped *)
    /\ Backtester.skipped (Backtester.book r_ba) = [a]
    /\ h_ba b == Backtester.holdings st b + Backtester.deltas r_ba b
    /\ h_ba a == Backtester.holdings st a
    (* the resulting states differ *)
    /\ ~ h_ab a == h_ba a /\ ~ h_ab b == h_ba b.
Proof.
  exists Scenario.frictionless, (Backtester.initial_state Scenario.frictionless),
         Scenario.row_overweight, "A", "B".
  cbv zeta.
  split; [discriminate|].
  repeat split; try (vm_compute; reflexivity); try (vm_compute; discriminate).
Qed.

(** What the code records as a date's weights: the holdings valued before
    the date's trades ([current_asset_values], computed at the top of the
    iteration) over the total value after the trades. *)
Lemma recorded_weight_formula :
  forall universe self st row s,
    let r := Backtester.process_date universe self st row in
    ~ Backtester.Total_Value (Backtester.snapshot r) == 0 ->
    Backtester.Weight (Backtester.snapshot r)
    = map (fun s => (s, Backtester.holdings st s * Backtester.current_prices row s
                        / Backtester.Total_Value (Backtester.snapshot r)))
          universe
    /\ Backtester.next_weights r s
       = Backtester.holdings st s * Backtester.current_prices row s
         / Backtester.Total_Value (Backtester.snapshot r).
Proof.
  intros universe self st row s r Hnz.
  pose proof Hnz as Hnz'. apply Qneb_true in Hnz'.
  assert (Hz : Qeq_bool (Backtester.Total_Value (Backtester.snapshot r)) 0 = false).
  { unfold Np.Qneb in Hnz'. now apply negb_true_iff in Hnz'. }
  split.
  - unfold r, Backtester.process_date in *. cbn [Backtester.snapshot Backtester.Weight Backtester.Total_Value] in *.
    apply map_ext. intro k. rewrite Hnz'. reflexivity.
  - unfold r, Backtester.process_date in *. cbn [Backtester.snapshot Backtester.next_weights Backtester.Total_Value] in *.
    rewrite Hz, Hnz'. reflexivity.
Qed.

(** C2 at the first date of a run with universe [A], capital 100, price 10,
    target weight 1 and no costs.  Ten shares are bought, so after the trade
    the position is worth 100 of a total of 100 and its weight is 1; the
    weight written into the history entry and the weight carried forward as
    [previous_weights] are both 0, the weight of the empty pre-trade
    position. *)
Theorem C2_recorded_weight_uses_pre_trade_holdings :
  exists recorded : Q,
    let r := Backtester.process_date ["A"] Scenario.frictionless
               (Backtester.initial_state Scenario.frictionless)
               Scenario.row_all_in_A in
    Backtester.skipped (Backtester.book r) = []
    /\ Backtester.current_holdings (Backtester.book r) "A" == 10
    /\ Backtester.Total_Value (Backtester.snapshot r) == 100
    /\ Backtester.current_holdings (Backtester.book r) "A"
         * Backtester.current_prices Scenario.row_all_in_A "A"
         / Backtester.Total_Value (Backtester.snapshot r) == 1
    /\ Backtester.Weight (Backtester.snapshot r) = [("A", recorded)]
    /\ recorded == 0
    /\ Backtester.next_weights r "A" == 0.
Proof.
  eexists. cbv zeta.
  repeat split; vm_compute; reflexivity.
Qed.

(* ================================================================= *)
(** ** Weight vectors: clipping and normalisation                    *)
(* ================================================================= *)

Lemma of_nat_succ (n : nat) : Np.of_nat (S n) == Np.of_nat n + 1.
Proof.
  unfold Np.of_nat. rewrite Nat2Z.inj_succ. unfold Z.succ.
  now rewrite inject_Z_plus.
Qed.

Lemma of_nat_pos (n : nat) : (0 < n)%nat -> 0 < Np.of_nat n.
Proof.
  intro H. unfold Np.of_nat.
  change 0 with (inject_Z 0). rewrite <- Zlt_Qlt. lia.
Qed.

Lemma sum_repeat (c : Q) (n : nat) : Np.sum (repeat c n) == Np.of_nat n * c.
Proof.
  induction n as [|n IH].
  - simpl. unfold Np.of_nat. simpl. ring.
  - cbn [repeat Np.sum]. rewrite IH, of_nat_succ. ring.
Qed.

Lemma sum_div_scalar (a : list Q) (c : Q) :
  ~ c == 0 -> Np.sum (Np.div_scalar a c) == Np.sum a / c.
Proof.
  intro Hc. unfold Np.div_scalar. induction a as [|v a IH]; simpl.
  - field. exact Hc.
  - rewrite IH. field. exact Hc.
Qed.

Lemma sum_nonneg (a : list Q) :
  (forall y, In y a -> 0 <= y) -> 0 <= Np.sum a.
Proof.
  induction a as [|v a IH]; intro H; simpl.
  - lra.
  - assert (0 <= v) by (apply H; now left).
    assert (0 <= Np.sum a) by (apply IH; intros; apply H; now right).
    lra.
Qed.

Lemma le_sum (a : list Q) (v : Q) :
  (forall y, In y a -> 0 <= y) -> In v a -> v <= Np.sum a.
Proof.
  induction a as [|u a IH]; intros H Hin; simpl.
  - destruct Hin.
  - assert (0 <= u) by (apply H; now left).
    assert (Ha : forall y, In y a -> 0 <= y) by (intros; apply H; now right).
    pose proof (sum_nonneg a Ha).
    destruct Hin as [->|Hin].
    + lra.
    + specialize (IH Ha Hin). lra.
Qed.

Lemma equal_weights_repeat (n : nat) :
  Np.equal_weights n = repeat (1 / Np.of_nat n) n.
Proof.
  unfold Np.equal_weights, Np.div_scalar, Np.ones.
  induction n as [|n IH]; [reflexivity|].
  generalize (Np.of_nat (S n)). intro c.
  clear IH. induction (S n) as [|m IHm]; simpl; [reflexivity|now rewrite IHm].
Qed.

Lemma equal_weights_sum (n : nat) :
  (0 < n)%nat -> Np.sum (Np.equal_weights n) == 1.
Proof.
  intro H. rewrite equal_weights_repeat, sum_repeat.
  pose proof (of_nat_pos n H). field. lra.
Qed.

Lemma equal_weights_range (n : nat) (v : Q) :
  In v (Np.equal_weights n) -> 0 <= v <= 1.
Proof.
  rewrite equal_weights_repeat. intro Hin.
  apply repeat_spec in Hin. subst v.
  destruct n as [|n]; [unfold Np.of_nat; simpl; split; discriminate|].
  pose proof (of_nat_pos (S n) ltac:(lia)) as Hp.
  assert (1 <= Np.of_nat (S n)).
  { rewrite of_nat_succ. assert (0 <= Np.of_nat n).
    { unfold Np.of_nat. change 0 with (inject_Z 0). rewrite <- Zle_Qle. lia. }
    lra. }
  split.
  - apply Qle_shift_div_l; [assumption|lra].
  - apply Qle_shift_div_r; [assumption|lra].
Qed.

Lemma clip_range (a : list Q) (v : Q) :
  In v (Np.clip a 0 1) -> 0 <= v <= 1.
Proof.
  unfold Np.clip. rewrite in_map_iff. intros [u [<- _]]. split.
  - apply Q.min_glb; [apply Q.le_max_r|discriminate].
  - apply Q.le_min_r.
Qed.

Lemma normalised_sum (a : list Q) :
  ~ Np.sum a == 0 -> Np.sum (Np.div_scalar a (Np.sum a)) == 1.
Proof.
  intro H. rewrite sum_div_scalar by assumption. field. assumption.
Qed.

Lemma normalised_range (a : list Q) (v : Q) :
  (forall y, In y a -> 0 <= y) -> ~ Np.sum a == 0 ->
  In v (Np.div_scalar a (Np.sum a)) -> 0 <= v <= 1.
Proof.
  intros Hnn Hnz. unfold Np.div_scalar. rewrite in_map_iff. intros [u [<- Hu]].
  pose proof (sum_nonneg a Hnn) as Hs.
  assert (Hpos : 0 < Np.sum a).
  { destruct (Qlt_le_dec 0 (Np.sum a)) as [|Hle]; [assumption|].
    exfalso. apply Hnz. lra. }
  pose proof (le_sum a u Hnn Hu). pose proof (Hnn u Hu).
  split.
  - apply Qle_shift_div_l; [assumption|lra].
  - apply Qle_shift_div_r; [assumption|lra].
Qed.

(** A clipped vector, re-normalised or replaced by equal weights. *)
Lemma renormalised_valid (n : nat) (a : list Q) :
  (0 < n)%nat ->
  let c := Np.clip a 0 1 in
  let w := if Np.Qneb (Np.sum c) 0
           then Np.div_scalar c (Np.sum c) else Np.equal_weights n in
  (forall v, In v w -> 0 <= v <= 1) /\ Np.sum w == 1.
Proof.
  intros Hn c w. subst w.
  destruct (Np.Qneb (Np.sum c) 0) eqn:E.
  - apply Qneb_true in E. split.
    + intros v Hv. apply (normalised_range c); try assumption.
      intros y Hy. apply (clip_range a y Hy).
    + now apply normalised_sum.
  - split.
    + intros v. apply equal_weights_range.
    + now apply equal_weights_sum.
Qed.

(* ================================================================= *)
(** ** The monad of runs                                             *)
(* ================================================================= *)

Lemma bind_value {A B} (m : Py.M A) (k : A -> Py.M B) (a : A) :
  Py.value m = Py.Ret a -> Py.value (Py.bind m k) = Py.value (k a).
Proof.
  destruct m as [[a'|e] t]; unfold Py.value; simpl; intro H; inversion H; subst.
  now destruct (k a).
Qed.

Lemma bind_raise {A B} (m : Py.M A) (k : A -> Py.M B) (e : Py.exn) :
  Py.value m = Py.Raise e -> Py.bind m k = (Py.Raise e, Py.trace m).
Proof.
  destruct m as [[a'|e'] t]; unfold Py.value, Py.trace; simpl; intro H;
    inversion H; subst; reflexivity.
Qed.

Lemma bind_trace {A B} (m : Py.M A) (k : A -> Py.M B) (a : A) :
  Py.value m = Py.Ret a ->
  Py.trace (Py.bind m k) = Py.trace m ++ Py.trace (k a).
Proof.
  destruct m as [[a'|e] t]; unfold Py.value, Py.trace; simpl; intro H;
    inversion H; subst.
  now destruct (k a).
Qed.

(* ================================================================= *)
(** ** Allocator                                                     *)
(* ================================================================= *)

Section Allocator.

Import PortfolioOptimizer.

Variable minimize :
  objective -> list Q -> option (list (Q * Q)) -> cons_value ->
  Py.outcome OptimizeResult.

(** The solver raises: the [except] branch answers with [np.ones(n)]. *)
Lemma solve_raised (n : nat) (p : Problem) (e : Py.exn) :
  minimize (objective_function p) (initial_weights p) (bounds p) (cons p)
    = Py.Raise e ->
  solve minimize n p
  = (Py.Ret (Np.ones n),
     [Py.Called "minimize"; Py.Printed "Error during optimization"]).
Proof. intro H. unfold solve. rewrite H. reflexivity. Qed.

(** The solver returns without success: equal weights. *)
Lemma solve_not_converged (n : nat) (p : Problem) (res : OptimizeResult) :
  minimize (objective_function p) (initial_weights p) (bounds p) (cons p)
    = Py.Ret res ->
  success res = false ->
  solve minimize n p
  = (Py.Ret (Np.equal_weights n),
     [Py.Called "minimize"; Py.Printed "Optimization failed"]).
Proof. intros H Hs. unfold solve. rewrite H. simpl. rewrite Hs. reflexivity. Qed.

(** The solver returns with success: clip, then re-normalise or fall back. *)
Lemma solve_converged (n : nat) (p : Problem) (res : OptimizeResult) :
  minimize (objective_function p) (initial_weights p) (bounds p) (cons p)
    = Py.Ret res ->
  success res = true ->
  solve minimize n p
  = (Py.Ret (if Np.Qneb (Np.sum (Np.clip (x res) 0 1)) 0
             then Np.div_scalar (Np.clip (x res) 0 1) (Np.sum (Np.clip (x res) 0 1))
             else Np.equal_weights n),
     [Py.Called "minimize"]).
Proof. intros H Hs. unfold solve. rewrite H. simpl. rewrite Hs. reflexivity. Qed.

(** Whatever the solver does, [solve] returns a vector and enters the solver
    exactly once. *)
Lemma solve_returns (n : nat) (p : Problem) :
  exists a, Py.value (solve minimize n p) = Py.Ret a.
Proof.
  destruct (minimize (objective_function p) (initial_weights p) (bounds p) (cons p))
    as [res|e] eqn:E.
  - destruct (success res) eqn:Hs.
    + rewrite (solve_converged n p res E Hs). eexists. reflexivity.
    + rewrite (solve_not_converged n p res E Hs). eexists. reflexivity.
  - rewrite (solve_raised n p e E). eexists. reflexivity.
Qed.

Lemma formulate_no_objective (mu : list Q) (cov : Matrix) (constraints : flags) :
  formulate mu cov None None constraints
  = (Py.Raise (Py.ValueError
       "Either 'target_risk' or 'risk_aversion_lambda' must be provided."), []).
Proof. reflexivity. Qed.

Lemma formulate_returns (mu : list Q) (cov : Matrix)
      (tr lam : option Q) (constraints : flags) :
  is_some tr || is_some lam = true ->
  exists p, formulate mu cov tr lam constraints = (Py.Ret p, []).
Proof.
  intro H. unfold formulate.
  destruct tr as [t|]; [|destruct lam as [l|]; [|discriminate H]];
    simpl; eexists; reflexivity.
Qed.

Lemma mvo_returns (mu : list Q) (cov : Matrix)
      (tr lam : option Q) (constraints : flags) :
  is_some tr || is_some lam = true ->
  exists a, Py.value (mean_variance_optimization minimize mu cov tr lam constraints)
            = Py.Ret a.
Proof.
  intro H. unfold mean_variance_optimization.
  destruct (List.length mu =? 0)%nat; [eexists; reflexivity|].
  destruct (formulate_returns mu cov tr lam constraints H) as [p Hp].
  destruct (solve_returns (List.length mu) p) as [a Ha].
  exists a. rewrite (bind_value _ _ p); [exact Ha|]. now rewrite Hp.
Qed.

End Allocator.

(** C3 at a concrete call: two assets, risk-aversion objective, the flags
    the strategy engine passes.  The constraint sequence built for this call
    is [('type', 'fun', {...})]: the dictionary's two keys followed by a
    dictionary.  When the solver raises, the allocator returns [[1; 1]]
    (and prints), a vector that sums to 2, not the equal-weight vector
    [[1/2; 1/2]]; when the solver returns without success the allocator does
    return [[1/2; 1/2]]. *)
Theorem C3_exception_fallback_is_all_ones :
  (exists p,
      PortfolioOptimizer.formulate [1 # 100; 2 # 100] Scenario.cov_AB
        None (Some (1 # 2)) StrategyEngine.long_only_sum_to_one = (Py.Ret p, [])
      /\ PortfolioOptimizer.cons p
         = PortfolioOptimizer.Cons_tuple
             [PortfolioOptimizer.Item_key "type"; PortfolioOptimizer.Item_key "fun";
              PortfolioOptimizer.Item_dict
                (PortfolioOptimizer.mkConstraint "eq" PortfolioOptimizer.sum_minus_one)])
  /\ PortfolioOptimizer.mean_variance_optimization Scenario.solver_raises
       [1 # 100; 2 # 100] Scenario.cov_AB None (Some (1 # 2))
       StrategyEngine.long_only_sum_to_one
     = (Py.Ret [1; 1], [Py.Called "minimize"; Py.Printed "Error during optimization"])
  /\ Np.sum [1; 1] == 2
  /\ ~ Np.sum [1; 1] == 1
  /\ Np.equal_weights 2 = [1 / 2; 1 / 2]
  /\ PortfolioOptimizer.mean_variance_optimization Scenario.solver_fails
       [1 # 100; 2 # 100] Scenario.cov_AB None (Some (1 # 2))
       StrategyEngine.long_only_sum_to_one
     = (Py.Ret (Np.equal_weights 2),
        [Py.Called "minimize"; Py.Printed "Optimization failed"]).
Proof.
  split; [eexists; split; reflexivity|].
  repeat split; try reflexivity.
  vm_compute. discriminate.
Qed.


(** When the allocator raises.  For a non-empty expected-return vector,
    giving neither the target risk nor the risk-aversion parameter makes the
    allocator raise [ValueError] with nothing printed and the solver not
    entered; for an empty vector the allocator returns the empty weight
    vector whatever the objective parameters are; and the allocator raises
    in no other case. *)
Lemma allocator_raises_iff_no_objective :
  forall minimize (mu : list Q) (cov : PortfolioOptimizer.Matrix)
         (tr lam : option Q) (constraints : PortfolioOptimizer.flags),
    let run := PortfolioOptimizer.mean_variance_optimization
                 minimize mu cov tr lam constraints in
    (mu <> [] -> tr = None -> lam = None ->
       run = (Py.Raise (Py.ValueError
                "Either 'target_risk' or 'risk_aversion_lambda' must be provided."),
              []))
    /\ (mu = [] -> run = (Py.Ret [], []))
    /\ (forall e, Py.value run = Py.Raise e ->
          mu <> [] /\ tr = None /\ lam = None).
Proof.
  intros minimize mu cov tr lam constraints run. subst run.
  split; [|split].
  - intros Hmu -> ->. unfold PortfolioOptimizer.mean_variance_optimization.
    destruct mu as [|m mu]; [contradiction|]. reflexivity.
  - intros ->. reflexivity.
  - intros e He.
    destruct mu as [|m mu]; [discriminate He|].
    split; [discriminate|].
    destruct tr as [t|].
    + destruct (mvo_returns minimize (m :: mu) cov (Some t) lam constraints eq_refl)
        as [a Ha].
      rewrite Ha in He. discriminate He.
    + destruct lam as [l|]; [|now split].
      destruct (mvo_returns minimize (m :: mu) cov None (Some l) constraints eq_refl)
        as [a Ha].
      rewrite Ha in He. discriminate He.
Qed.

(* ================================================================= *)
(** ** Strategy engine                                               *)
(* ================================================================= *)

Section Selector.

Import PortfolioOptimizer.

Variable minimize :
  objective -> list Q -> option (list (Q * Q)) -> cons_value ->
  Py.outcome OptimizeResult.

Lemma length_DataFrame_mean (df : DataFrame) :
  List.length (DataFrame_mean df) = shape1 df.
Proof. unfold DataFrame_mean. now rewrite length_map, length_seq. Qed.

Lemma not_empty_shape (df : DataFrame) :
  empty df = false -> (0 < shape1 df)%nat /\ (0 < List.length (rows df))%nat.
Proof.
  unfold empty, shape1. rewrite orb_false_iff, !Nat.eqb_neq. lia.
Qed.

(** Every branch of the dispatch calls the allocator with an objective, so
    the call returns a vector. *)
Lemma dispatch_returns (regime : string) (mu : list Q) (cov : Matrix) :
  exists a, Py.value (StrategyEngine.dispatch minimize regime mu cov) = Py.Ret a.
Proof.
  unfold StrategyEngine.dispatch.
  destruct (String.eqb regime "High_Vol"); [|destruct (String.eqb regime "Low_Vol")].
  - destruct (mvo_returns minimize mu cov
                (Some (Settings.TARGET_RISK_ANNUAL * (5 # 10))) None
                StrategyEngine.long_only_sum_to_one eq_refl) as [a Ha].
    exists a. now rewrite !(bind_value _ _ tt) by reflexivity.
  - destruct (mvo_returns minimize mu cov
                None (Some (Settings.LAMBDA_RISK_AVERSION * (15 # 10)))
                StrategyEngine.long_only_sum_to_one eq_refl) as [a Ha].
    exists a. now rewrite !(bind_value _ _ tt) by reflexivity.
  - destruct (mvo_returns minimize mu cov
                None (Some Settings.LAMBDA_RISK_AVERSION)
                StrategyEngine.long_only_sum_to_one eq_refl) as [a Ha].
    exists a. now rewrite !(bind_value _ _ tt) by reflexivity.
Qed.

Lemma clip_and_renormalize_value (n : nat) (a : list Q) :
  Py.value (StrategyEngine.clip_and_renormalize n a)
  = Py.Ret (if Np.Qneb (Np.sum (Np.clip a 0 1)) 0
            then Np.div_scalar (Np.clip a 0 1) (Np.sum (Np.clip a 0 1))
            else Np.equal_weights n).
Proof.
  unfold StrategyEngine.clip_and_renormalize.
  destruct (Np.Qneb (Np.sum (Np.clip a 0 1)) 0); reflexivity.
Qed.

End Selector.

(** C10.  For a non-empty return window and any regime label, the selector
    returns a vector: the vector [a] that the allocator call of the
    regime's branch returned, clipped to [0,1] and divided by its sum, or
    the equal-weight vector when the clipped sum is zero.  Every component
    of the returned vector lies in [0,1] and the components sum to 1. *)
Theorem C10_selector_weights_valid :
  forall minimize (current_regime : string)
         (lookback_returns : PortfolioOptimizer.DataFrame),
    PortfolioOptimizer.empty lookback_returns = false ->
    exists a w : list Q,
      Py.value (StrategyEngine.dispatch minimize current_regime
                  (PortfolioOptimizer.DataFrame_mean lookback_returns)
                  (PortfolioOptimizer.DataFrame_cov lookback_returns)) = Py.Ret a
      /\ Py.value (StrategyEngine.generate_regime_specific_weights
                     minimize current_regime lookback_returns) = Py.Ret w
      /\ w = (if Np.Qneb (Np.sum (Np.clip a 0 1)) 0
              then Np.div_scalar (Np.clip a 0 1) (Np.sum (Np.clip a 0 1))
              else Np.equal_weights (PortfolioOptimizer.shape1 lookback_returns))
      /\ (forall v, In v w -> 0 <= v <= 1)
      /\ Np.sum w == 1.
Proof.
  intros minimize regime window Hne.
  destruct (not_empty_shape window Hne) as [Hn _].
  destruct (dispatch_returns minimize regime
              (PortfolioOptimizer.DataFrame_mean window)
              (PortfolioOptimizer.DataFrame_cov window)) as [a Ha].
  exists a. eexists. split; [exact Ha|]. split; [|split; [reflexivity|]].
  - unfold StrategyEngine.generate_regime_specific_weights. rewrite Hne.
    rewrite (bind_value _ _ a Ha). apply clip_and_renormalize_value.
  - apply (renormalised_valid _ a Hn).
Qed.

Lemma C10_selector_weights_valid_witness :
  PortfolioOptimizer.empty Scenario.window_AB = false
  /\ exists a w : list Q,
      Py.value (StrategyEngine.dispatch (Scenario.solver_returns [3; -1]) "High_Vol"
                  (PortfolioOptimizer.DataFrame_mean Scenario.window_AB)
                  (PortfolioOptimizer.DataFrame_cov Scenario.window_AB)) = Py.Ret a
      /\ Py.value (StrategyEngine.generate_regime_specific_weights
                     (Scenario.solver_returns [3; -1]) "High_Vol"
                     Scenario.window_AB) = Py.Ret w
      /\ w = (if Np.Qneb (Np.sum (Np.clip a 0 1)) 0
              then Np.div_scalar (Np.clip a 0 1) (Np.sum (Np.clip a 0 1))
              else Np.equal_weights (PortfolioOptimizer.shape1 Scenario.window_AB))
      /\ (forall v, In v w -> 0 <= v <= 1)
      /\ Np.sum w == 1.
Proof.
  split; [reflexivity|].
  exact (C10_selector_weights_valid (Scenario.solver_returns [3; -1]) "High_Vol"
           Scenario.window_AB eq_refl).
Defined.

(** C6.  For a return window with no rows and any regime label, the selector
    returns the equal-weight vector, [N] copies of [1/N] for the [N] columns
    of the window; neither the allocator nor the solver is entered (the run
    only prints its warning). *)
Theorem C6_empty_window_equal_weights :
  forall minimize (current_regime : string)
         (lookback_returns : PortfolioOptimizer.DataFrame),
    PortfolioOptimizer.rows lookback_returns = [] ->
    let n := PortfolioOptimizer.shape1 lookback_returns in
    let run := StrategyEngine.generate_regime_specific_weights
                 minimize current_regime lookback_returns in
    Py.value run = Py.Ret (repeat (1 / Np.of_nat n) n)
    /\ Py.calls_to "mean_variance_optimization" (Py.trace run) = 0%nat
    /\ Py.calls_to "minimize" (Py.trace run) = 0%nat
    /\ Py.trace run
       = [Py.Printed
            (String.append "Warning: No lookback returns for regime "
               (String.append current_regime ". Returning equal weights."))].
Proof.
  intros minimize regime window Hrows n run. subst run.
  unfold StrategyEngine.generate_regime_specific_weights.
  assert (He : PortfolioOptimizer.empty window = true).
  { unfold PortfolioOptimizer.empty. now rewrite Hrows. }
  rewrite He. fold n.
  change (Np.div_scalar (Np.ones n) (Np.of_nat n)) with (Np.equal_weights n).
  rewrite equal_weights_repeat.
  repeat split; reflexivity.
Qed.

Lemma C6_empty_window_equal_weights_witness :
  PortfolioOptimizer.rows Scenario.window_no_rows = []
  /\ Py.value (StrategyEngine.generate_regime_specific_weights
                 Scenario.solver_raises "High_Vol" Scenario.window_no_rows)
     = Py.Ret [1 / 2; 1 / 2].
Proof.
  split; [reflexivity|].
  exact (proj1 (C6_empty_window_equal_weights Scenario.solver_raises "High_Vol"
                  Scenario.window_no_rows eq_refl)).
Defined.

(* ================================================================= *)
(** ** Estimators                                                    *)
(* ================================================================= *)

(** C7, where the claim fails: on the two-column window without rows both
    estimators return a value (the empty frame, the empty series) and raise
    nothing. *)
Lemma C7_estimators_return_on_empty_window :
  PortfolioOptimizer.calculate_covariance_matrix Scenario.window_no_rows
    = (Py.Ret PortfolioOptimizer.empty_DataFrame, [])
  /\ PortfolioOptimizer.calculate_expected_returns Scenario.window_no_rows
    = (Py.Ret PortfolioOptimizer.empty_Series, [])
  /\ ~ (exists e,
          Py.value (PortfolioOptimizer.calculate_covariance_matrix
                      Scenario.window_no_rows) = Py.Raise e)
  /\ ~ (exists e,
          Py.value (PortfolioOptimizer.calculate_expected_returns
                      Scenario.window_no_rows) = Py.Raise e).
Proof.
  repeat split; try reflexivity; intros [e H]; discriminate H.
Qed.

(** C7 as amended.  Given a return window with zero rows, the covariance
    estimator returns the empty frame and the expected-return estimator
    returns the empty series; neither signals an error. *)
Theorem C7_estimators_on_empty_window :
  forall returns : PortfolioOptimizer.DataFrame,
    PortfolioOptimizer.rows returns = [] ->
    PortfolioOptimizer.calculate_covariance_matrix returns
      = (Py.Ret PortfolioOptimizer.empty_DataFrame, [])
    /\ PortfolioOptimizer.calculate_expected_returns returns
      = (Py.Ret PortfolioOptimizer.empty_Series, []).
Proof.
  intros returns Hrows.
  unfold PortfolioOptimizer.calculate_covariance_matrix,
         PortfolioOptimizer.calculate_expected_returns,
         PortfolioOptimizer.empty.
  rewrite Hrows. split; reflexivity.
Qed.

Lemma C7_estimators_on_empty_window_witness :
  PortfolioOptimizer.rows Scenario.window_no_rows = []
  /\ PortfolioOptimizer.calculate_covariance_matrix Scenario.window_no_rows
     = (Py.Ret PortfolioOptimizer.empty_DataFrame, []).
Proof.
  split; [reflexivity|].
  exact (proj1 (C7_estimators_on_empty_window Scenario.window_no_rows eq_refl)).
Defined.

(* ================================================================= *)
(** ** Regime classifier                                             *)
(* ================================================================= *)

(** The two mask assignments, cell by cell: the low-threshold assignment is
    the later one and wins. *)
Lemma assign_twice (vol : list (option Q)) (high low : Q) :
  MarketAnalyzer.assign_where
    (MarketAnalyzer.assign_where (repeat "Normal_Vol" (List.length vol))
       (MarketAnalyzer.ge_mask vol high) "High_Vol")
    (MarketAnalyzer.le_mask vol low) "Low_Vol"
  = map (fun c => match c with
                  | Some v => if Qle_bool v low then "Low_Vol"
                              else if Qle_bool high v then "High_Vol"
                              else "Normal_Vol"
                  | None => "Normal_Vol"
                  end) vol.
Proof.
  induction vol as [|c vol IH]; [reflexivity|].
  simpl. rewrite IH. f_equal.
  destruct c as [v|]; [|reflexivity].
  destruct (Qle_bool v low), (Qle_bool high v); reflexivity.
Qed.

(** C8, where the claim fails: a volatility equal to both thresholds
    (1/100) is labelled Low_Vol, not High_Vol. *)
Lemma C8_value_at_both_thresholds_is_low :
  (1 # 100) <= (1 # 100) /\ 0 <= (1 # 100)
  /\ MarketAnalyzer.get_column Scenario.frame_at_threshold "Volatility"
     = Some [Some (1 # 100)]
  /\ Py.value (MarketAnalyzer.identify_regimes Scenario.frame_at_threshold
                 "Volatility" (1 # 100) (1 # 100)) = Py.Ret ["Low_Vol"]
  /\ Py.value (MarketAnalyzer.identify_regimes Scenario.frame_at_threshold
                 "Volatility" (1 # 100) (1 # 100)) <> Py.Ret ["High_Vol"].
Proof.
  repeat split; try reflexivity; discriminate.
Qed.

(** C8 as amended.  With thresholds [high >= low >= 0], the classifier
    labels a volatility value [v] Low_Vol when [v <= low], High_Vol when
    [v >= high] unless [v] equals both thresholds, and Normal_Vol when
    [low < v < high]; a NaN cell is Normal_Vol.  A value equal to both
    thresholds is Low_Vol: the low-threshold assignment is applied last. *)
Theorem C8_regime_classification :
  forall (df : MarketAnalyzer.Frame) (vol_col : string)
         (high_threshold low_threshold : Q) (vol : list (option Q)),
    low_threshold <= high_threshold -> 0 <= low_threshold ->
    MarketAnalyzer.get_column df vol_col = Some vol ->
    exists regime : list string,
      Py.value (MarketAnalyzer.identify_regimes df vol_col
                  high_threshold low_threshold) = Py.Ret regime
      /\ List.length regime = List.length vol
      /\ forall i : nat,
           (forall v, nth_error vol i = Some (Some v) ->
              (v <= low_threshold -> nth_error regime i = Some "Low_Vol")
              /\ (high_threshold <= v ->
                  ~ (v == high_threshold /\ v == low_threshold) ->
                    nth_error regime i = Some "High_Vol")
              /\ (low_threshold < v -> v < high_threshold ->
                    nth_error regime i = Some "Normal_Vol")
              /\ (v == high_threshold -> v == low_threshold ->
                    nth_error regime i = Some "Low_Vol"))
           /\ (nth_error vol i = Some None ->
                 nth_error regime i = Some "Normal_Vol").
Proof.
  intros df vol_col high low vol Hlh _ Hcol.
  unfold MarketAnalyzer.identify_regimes. rewrite Hcol.
  rewrite assign_twice. eexists. split; [reflexivity|].
  split; [apply length_map|].
  intro i. split.
  - intros v Hv. rewrite nth_error_map, Hv. simpl.
    repeat split.
    + intro H. apply Qle_bool_iff in H. now rewrite H.
    + intros Hh Hboth.
      assert (Hl : low < v).
      { destruct (Qlt_le_dec low v) as [|Hle]; [assumption|].
        exfalso. apply Hboth. split; lra. }
      apply Qle_bool_false in Hl. apply Qle_bool_iff in Hh.
      now rewrite Hl, Hh.
    + intros Hl Hh. apply Qle_bool_false in Hl. apply Qle_bool_false in Hh.
      now rewrite Hl, Hh.
    + intros _ Hl. assert (H : v <= low) by lra.
      apply Qle_bool_iff in H. now rewrite H.
  - intro Hv. now rewrite nth_error_map, Hv.
Qed.

Lemma C8_regime_classification_witness :
  Settings.REGIME_THRESHOLD_LOW_VOL <= Settings.REGIME_THRESHOLD_HIGH_VOL
  /\ 0 <= Settings.REGIME_THRESHOLD_LOW_VOL
  /\ MarketAnalyzer.get_column Scenario.frame_mixed "Volatility"
     = Some [Some (2 # 100); Some (1 # 1000); Some (1 # 100); None]
  /\ exists regime : list string,
       Py.value (MarketAnalyzer.identify_regimes Scenario.frame_mixed "Volatility"
                   Settings.REGIME_THRESHOLD_HIGH_VOL
                   Settings.REGIME_THRESHOLD_LOW_VOL) = Py.Ret regime
       /\ List.length regime = 4%nat.
Proof.
  assert (H1 : Settings.REGIME_THRESHOLD_LOW_VOL <= Settings.REGIME_THRESHOLD_HIGH_VOL)
    by (vm_compute; discriminate).
  assert (H2 : 0 <= Settings.REGIME_THRESHOLD_LOW_VOL) by (vm_compute; discriminate).
  split; [exact H1|split; [exact H2|split; [reflexivity|]]].
  destruct (C8_regime_classification Scenario.frame_mixed "Volatility"
              Settings.REGIME_THRESHOLD_HIGH_VOL Settings.REGIME_THRESHOLD_LOW_VOL
              _ H1 H2 eq_refl) as [regime [Hv [Hl _]]].
  exists regime. split; [exact Hv|exact Hl].
Defined.

(* ================================================================= *)
(** ** Backtester: the trade-cost model                              *)
(* ================================================================= *)

Lemma abs_diff_swap (a b : list Q) :
  map Qabs (Np.zip_with Qminus a b) = map Qabs (Np.zip_with Qminus b a).
Proof.
  revert b. induction a as [|u a IH]; intros [|v b]; try reflexivity.
  cbn [Np.zip_with map]. now rewrite IH, Qabs_Qminus.
Qed.

Lemma abs_diff_scaled (a b : list Q) (c : Q) :
  Np.sum (map Qabs (Np.zip_with Qminus (Np.mul_scalar a c) (Np.mul_scalar b c)))
  == Qabs c * Np.sum (map Qabs (Np.zip_with Qminus a b)).
Proof.
  revert b. induction a as [|u a IH]; intros [|v b];
    cbn [Np.mul_scalar Np.zip_with map Np.sum]; try ring.
  unfold Np.mul_scalar in IH. rewrite IH.
  setoid_replace (u * c - v * c) with ((u - v) * c) by ring.
  rewrite Qabs_Qmult. ring.
Qed.

Lemma sum_abs_nonneg (a : list Q) : 0 <= Np.sum (map Qabs a).
Proof.
  apply sum_nonneg. intros y Hy. apply in_map_iff in Hy.
  destruct Hy as [u [<- _]]. apply Qabs_nonneg.
Qed.

Lemma abs_diff_self (a : list Q) :
  Np.sum (map Qabs (Np.zip_with Qminus a a)) == 0.
Proof.
  induction a as [|u a IH]; cbn [Np.zip_with map Np.sum]; [reflexivity|].
  rewrite IH. setoid_replace (u - u) with 0 by ring. reflexivity.
Qed.

(** X1.  The trade cost is the absolute portfolio value times the turnover
    in weight (the sum of the absolute weight changes) times the sum of the
    two rates. *)
Theorem trade_cost_closed_form :
  forall (self : Backtester.Config) (old_weights new_weights : list Q) (value : Q),
    Backtester._calculate_trade_cost self old_weights new_weights value
    == Qabs value
       * Np.sum (map Qabs (Np.zip_with Qminus new_weights old_weights))
       * (Backtester.transaction_cost_rate self + Backtester.slippage_rate self).
Proof.
  intros self old new v. unfold Backtester._calculate_trade_cost.
  now rewrite abs_diff_scaled.
Qed.

(** X2.  A backtester built from non-negative basis-point settings never
    charges a negative trade cost, whatever the weights and the portfolio
    value (negative values included). *)
Theorem trade_cost_nonneg :
  forall (initial_capital transaction_cost_bps slippage_bps : Q)
         (old_weights new_weights : list Q) (value : Q),
    0 <= transaction_cost_bps -> 0 <= slippage_bps ->
    0 <= Backtester._calculate_trade_cost
           (Backtester.init initial_capital transaction_cost_bps slippage_bps)
           old_weights new_weights value.
Proof.
  intros cap tc sl old new v Htc Hsl.
  unfold Backtester._calculate_trade_cost, Backtester.init. simpl.
  apply Qmult_le_0_compat.
  - apply sum_abs_nonneg.
  - assert (0 <= tc / 10000) by (apply Qle_shift_div_l; [reflexivity|lra]).
    assert (0 <= sl / 10000) by (apply Qle_shift_div_l; [reflexivity|lra]).
    lra.
Qed.

Lemma trade_cost_nonneg_witness :
  0 <= Settings.TRANSACTION_COST_BPS /\ 0 <= Settings.SLIPPAGE_BPS
  /\ 0 <= Backtester._calculate_trade_cost Backtester.default
            [0; 0] [6 # 10; 4 # 10] (-100).
Proof.
  assert (H1 : 0 <= Settings.TRANSACTION_COST_BPS) by (vm_compute; discriminate).
  assert (H2 : 0 <= Settings.SLIPPAGE_BPS) by (vm_compute; discriminate).
  split; [exact H1|split; [exact H2|]].
  exact (trade_cost_nonneg Settings.INITIAL_CAPITAL Settings.TRANSACTION_COST_BPS
           Settings.SLIPPAGE_BPS [0; 0] [6 # 10; 4 # 10] (-100) H1 H2).
Defined.

(** X3.  The trade cost is symmetric in the two weight vectors (moving from
    [w1] to [w2] costs what moving back costs) and is zero when the weights
    do not change. *)
Theorem trade_cost_symmetric :
  forall (self : Backtester.Config) (w1 w2 : list Q) (value : Q),
    Backtester._calculate_trade_cost self w1 w2 value
    == Backtester._calculate_trade_cost self w2 w1 value
    /\ Backtester._calculate_trade_cost self w1 w1 value == 0.
Proof.
  intros self w1 w2 v. split.
  - unfold Backtester._calculate_trade_cost. now rewrite abs_diff_swap.
  - unfold Backtester._calculate_trade_cost. rewrite abs_diff_self. ring.
Qed.

(* ================================================================= *)
(** ** Backtester: one date                                          *)
(* ================================================================= *)

(** X4.  Skipped buys create or destroy no value: on every date, skipped
    buys or not, the recorded total value is the value of the pre-trade
    portfolio at the date's prices minus the trade cost, and the recorded
    cash and asset value add up to it. *)
Theorem total_value_is_value_minus_cost :
  forall (universe : list string) (self : Backtester.Config)
         (st : Backtester.State) (row : Backtester.Row),
    NoDup universe ->
    let r := Backtester.process_date universe self st row in
    Backtester.Total_Value (Backtester.snapshot r)
    == Backtester.total universe
         (Backtester.mul (Backtester.holdings st) (Backtester.current_prices row))
       + Backtester.cash st - Backtester.cost r
    /\ Backtester.Total_Value (Backtester.snapshot r)
       = Backtester.Asset_Value (Backtester.snapshot r)
         + Backtester.Cash (Backtester.snapshot r).
Proof.
  intros universe self st row Hnd r.
  pose proof (execute_trades_worth (Backtester.deltas r)
                (Backtester.current_prices row) universe universe
                (Backtester.mkBook (Backtester.holdings st)
                                   (Backtester.cash st - Backtester.cost r) [])
                Hnd (incl_refl universe)) as Hw.
  unfold Backtester.worth in Hw.
  cbn [Backtester.cash_balance Backtester.current_holdings] in Hw.
  split; [|reflexivity].
  change (Backtester.Total_Value (Backtester.snapshot r))
    with (Backtester.total universe
            (Backtester.mul (Backtester.current_holdings (Backtester.book r))
               (Backtester.current_prices row))
          + Backtester.cash_balance (Backtester.book r)).
  change (Backtester.book r)
    with (Backtester.execute_trades universe (Backtester.deltas r)
            (Backtester.current_prices row)
            (Backtester.mkBook (Backtester.holdings st)
                               (Backtester.cash st - Backtester.cost r) [])).
  lra.
Qed.

Lemma total_value_is_value_minus_cost_witness :
  NoDup ["A"; "B"]
  /\ Backtester.skipped (Backtester.book
       (Backtester.process_date ["A"; "B"] Scenario.frictionless
          (Backtester.initial_state Scenario.frictionless) Scenario.row_overweight))
     = ["B"]
  /\ Backtester.Total_Value (Backtester.snapshot
       (Backtester.process_date ["A"; "B"] Scenario.frictionless
          (Backtester.initial_state Scenario.frictionless) Scenario.row_overweight))
     == 100.
Proof.
  split; [exact NoDup_AB|split; [reflexivity|]].
  rewrite (proj1 (total_value_is_value_minus_cost ["A"; "B"] Scenario.frictionless
                    (Backtester.initial_state Scenario.frictionless)
                    Scenario.row_overweight NoDup_AB)).
  reflexivity.
Defined.

Section TradeLoopFacts.

Import Backtester.

Variables (shares_to_trade prices : Series).

Lemma execute_trades_cons (s : string) (symbols : list string) (b : Book) :
  execute_trades (s :: symbols) shares_to_trade prices b
  = execute_trades symbols shares_to_trade prices
      (trade_symbol shares_to_trade prices b s).
Proof. reflexivity. Qed.

Lemma execute_trades_untouched (symbols : list string) (b : Book) (k : string) :
  ~ In k symbols ->
  current_holdings (execute_trades symbols shares_to_trade prices b) k
  = current_holdings b k.
Proof.
  revert b. induction symbols as [|s symbols IH]; intros b Hk; [reflexivity|].
  rewrite execute_trades_cons, IH by (intro; apply Hk; now right).
  apply trade_symbol_other. intros ->. apply Hk. now left.
Qed.

(** The list of reported symbols only grows, by at most the symbol at hand. *)
Lemma trade_symbol_skipped (b : Book) (s : string) :
  skipped (trade_symbol shares_to_trade prices b s) = skipped b
  \/ (skipped (trade_symbol shares_to_trade prices b s) = skipped b ++ [s]
      /\ 0 < shares_to_trade s
      /\ current_holdings (trade_symbol shares_to_trade prices b s)
         = current_holdings b).
Proof.
  unfold trade_symbol.
  destruct (Np.Qltb 0 (shares_to_trade s)) eqn:Hpos.
  - destruct (Qle_bool _ _); simpl; [now left|].
    right. apply Qltb_lt in Hpos. now repeat split.
  - destruct (Np.Qltb (shares_to_trade s) 0); simpl; now left.
Qed.

Lemma execute_trades_skipped_grows (symbols : list string) (b : Book) :
  exists l, skipped (execute_trades symbols shares_to_trade prices b)
            = skipped b ++ l.
Proof.
  revert b. induction symbols as [|s symbols IH]; intro b.
  - exists []. now rewrite app_nil_r.
  - rewrite execute_trades_cons.
    destruct (IH (trade_symbol shares_to_trade prices b s)) as [l Hl].
    destruct (trade_symbol_skipped b s) as [E|[E _]]; rewrite Hl, E.
    + now exists l.
    + exists ([s] ++ l). now rewrite app_assoc.
Qed.

(** When the symbol is not reported, its holding moves by the share delta. *)
Lemma trade_symbol_filled (b : Book) (s : string) :
  skipped (trade_symbol shares_to_trade prices b s) = skipped b ->
  current_holdings (trade_symbol shares_to_trade prices b s) s
  == current_holdings b s + shares_to_trade s.
Proof.
  unfold trade_symbol.
  destruct (Np.Qltb 0 (shares_to_trade s)) eqn:Hpos.
  - destruct (Qle_bool _ _); simpl; intro H.
    + now rewrite set_same.
    + exfalso. rewrite <- (app_nil_r (skipped b)) in H at 2.
      apply app_inv_head in H. discriminate H.
  - destruct (Np.Qltb (shares_to_trade s) 0) eqn:Hneg; simpl; intros _.
    + now rewrite set_same.
    + apply Qltb_ge in Hpos. apply Qltb_ge in Hneg. lra.
Qed.

Lemma execute_trades_filled (symbols : list string) (b : Book) :
  NoDup symbols ->
  skipped (execute_trades symbols shares_to_trade prices b) = skipped b ->
  forall s, In s symbols ->
    current_holdings (execute_trades symbols shares_to_trade prices b) s
    == current_holdings b s + shares_to_trade s.
Proof.
  intro Hnd. revert b. induction Hnd as [|a rest Ha Hnd IH]; intros b Hsk s Hin.
  - destruct Hin.
  - rewrite execute_trades_cons in *.
    set (b1 := trade_symbol shares_to_trade prices b a) in *.
    destruct (execute_trades_skipped_grows rest b1) as [l2 Hl2].
    assert (Hb1 : skipped b1 = skipped b /\ l2 = []).
    { destruct (trade_symbol_skipped b a) as [E|[E _]]; fold b1 in E.
      - rewrite Hl2, E in Hsk. rewrite <- (app_nil_r (skipped b)) in Hsk at 2.
        apply app_inv_head in Hsk. now split.
      - rewrite Hl2, E, <- app_assoc in Hsk.
        rewrite <- (app_nil_r (skipped b)) in Hsk at 2.
        apply app_inv_head in Hsk. discriminate Hsk. }
    destruct Hb1 as [Hb1 ->]. rewrite app_nil_r in Hl2.
    destruct Hin as [->|Hin].
    + rewrite execute_trades_untouched by assumption.
      now apply trade_symbol_filled.
    + rewrite (IH b1 Hl2 s Hin). unfold b1.
      rewrite trade_symbol_other by (intros ->; contradiction).
      reflexivity.
Qed.

Lemma execute_trades_skipped_spec (symbols : list string) (b : Book) (s : string) :
  NoDup symbols ->
  In s (skipped (execute_trades symbols shares_to_trade prices b)) ->
  ~ In s (skipped b) ->
  In s symbols /\ 0 < shares_to_trade s
  /\ current_holdings (execute_trades symbols shares_to_trade prices b) s
     = current_holdings b s.
Proof.
  intro Hnd. revert b. induction Hnd as [|a rest Ha Hnd IH]; intros b Hin Hout.
  - contradiction.
  - rewrite execute_trades_cons in *.
    set (b1 := trade_symbol shares_to_trade prices b a) in *.
    destruct (in_dec string_dec s (skipped b1)) as [Hs1|Hs1].
    + destruct (trade_symbol_skipped b a) as [E|[E [Hpos Hh]]]; fold b1 in E.
      * rewrite E in Hs1. contradiction.
      * fold b1 in Hh. rewrite E in Hs1. apply in_app_or in Hs1.
        destruct Hs1 as [Hs1|[<-|[]]]; [contradiction|].
        split; [now left|split; [assumption|]].
        rewrite execute_trades_untouched by assumption. now rewrite Hh.
    + destruct (IH b1 Hin Hs1) as [Hrest [Hpos Hh]].
      split; [now right|split; [assumption|]].
      rewrite Hh. unfold b1. apply trade_symbol_other.
      intros ->. contradiction.
Qed.

Lemma trade_symbol_cash_nonneg (b : Book) (s : string) :
  0 <= prices s -> 0 <= cash_balance b ->
  0 <= cash_balance (trade_symbol shares_to_trade prices b s).
Proof.
  intros Hp Hc. unfold trade_symbol.
  destruct (Np.Qltb 0 (shares_to_trade s)) eqn:Hpos.
  - destruct (Qle_bool _ _) eqn:Hle; simpl; [|assumption].
    apply Qle_bool_iff in Hle. lra.
  - destruct (Np.Qltb (shares_to_trade s) 0) eqn:Hneg; simpl; [|assumption].
    apply Qltb_lt in Hneg.
    assert (0 <= (- shares_to_trade s) * prices s)
      by (apply Qmult_le_0_compat; lra).
    lra.
Qed.

Lemma execute_trades_cash_nonneg (symbols : list string) (b : Book) :
  (forall s, In s symbols -> 0 <= prices s) -> 0 <= cash_balance b ->
  0 <= cash_balance (execute_trades symbols shares_to_trade prices b).
Proof.
  revert b. induction symbols as [|s symbols IH]; intros b Hp Hc; [assumption|].
  rewrite execute_trades_cons. apply IH.
  - intros k Hk. apply Hp. now right.
  - apply trade_symbol_cash_nonneg; [apply Hp; now left|assumption].
Qed.

End TradeLoopFacts.

Lemma sum_map_ext (f g : string -> Q) (l : list string) :
  (forall s, In s l -> f s == g s) ->
  Np.sum (map f l) == Np.sum (map g l).
Proof.
  induction l as [|a l IH]; intro H; simpl; [reflexivity|].
  rewrite IH by (intros; apply H; now right).
  rewrite (H a) by now left. reflexivity.
Qed.

Lemma sum_map_scale (f : string -> Q) (c : Q) (l : list string) :
  Np.sum (map (fun s => f s * c) l) == c * Np.sum (map f l).
Proof.
  induction l as [|a l IH]; simpl; [ring|]. rewrite IH. ring.
Qed.

Lemma process_date_value (universe : list string) (self : Backtester.Config)
      (st : Backtester.State) (row : Backtester.Row) :
  NoDup universe ->
  Backtester.Asset_Value
    (Backtester.snapshot (Backtester.process_date universe self st row))
  + Backtester.Cash
      (Backtester.snapshot (Backtester.process_date universe self st row))
  == Backtester.value_before (Backtester.process_date universe self st row)
     - Backtester.cost (Backtester.process_date universe self st row).
Proof.
  intro Hnd. set (r := Backtester.process_date universe self st row).
  pose proof (execute_trades_worth (Backtester.deltas r)
                (Backtester.current_prices row) universe universe
                (Backtester.mkBook (Backtester.holdings st)
                                   (Backtester.cash st - Backtester.cost r) [])
                Hnd (incl_refl universe)) as Hw.
  unfold Backtester.worth in Hw.
  cbn [Backtester.cash_balance Backtester.current_holdings] in Hw.
  change (Backtester.value_before r)
    with (Backtester.total universe
            (Backtester.mul (Backtester.holdings st) (Backtester.current_prices row))
          + Backtester.cash st).
  change (Backtester.Asset_Value (Backtester.snapshot r))
    with (Backtester.total universe
            (Backtester.mul
               (Backtester.current_holdings
                  (Backtester.execute_trades universe (Backtester.deltas r)
                     (Backtester.current_prices row)
                     (Backtester.mkBook (Backtester.holdings st)
                        (Backtester.cash st - Backtester.cost r) [])))
               (Backtester.current_prices row))).
  change (Backtester.Cash (Backtester.snapshot r))
    with (Backtester.cash_balance
            (Backtester.execute_trades universe (Backtester.deltas r)
               (Backtester.current_prices row)
               (Backtester.mkBook (Backtester.holdings st)
                  (Backtester.cash st - Backtester.cost r) []))).
  lra.
Qed.

Lemma process_date_targets (universe : list string) (self : Backtester.Config)
      (st : Backtester.State) (row : Backtester.Row) (s : string) :
  NoDup universe ->
  Backtester.skipped
    (Backtester.book (Backtester.process_date universe self st row)) = [] ->
  In s universe ->
  Backtester.current_holdings
    (Backtester.book (Backtester.process_date universe self st row)) s
  == Backtester.target_weights row s
     * (Backtester.value_before (Backtester.process_date universe self st row)
        - Backtester.cost (Backtester.process_date universe self st row))
     / Backtester.current_prices row s.
Proof.
  intros Hnd Hsk Hin. set (r := Backtester.process_date universe self st row) in *.
  pose proof (execute_trades_filled (Backtester.deltas r)
                (Backtester.current_prices row) universe
                (Backtester.mkBook (Backtester.holdings st)
                                   (Backtester.cash st - Backtester.cost r) [])
                Hnd Hsk s Hin) as H.
  cbn [Backtester.current_holdings] in H.
  change (Backtester.current_holdings (Backtester.book r) s
          == Backtester.holdings st s
             + (Backtester.target_weights row s
                * (Backtester.value_before r - Backtester.cost r)
                / Backtester.current_prices row s
                - Backtester.holdings st s)) in H.
  rewrite H. ring.
Qed.

(** X5.  On a date on which every price is non-zero and no buy is skipped,
    every symbol of the universe ends the date holding exactly its target
    share count: target weight times the portfolio value after cost,
    divided by the date's price. *)
Theorem filled_date_reaches_target_shares :
  forall (universe : list string) (self : Backtester.Config)
         (st : Backtester.State) (row : Backtester.Row),
    NoDup universe ->
    (forall s, In s universe -> ~ Backtester.current_prices row s == 0) ->
    let r := Backtester.process_date universe self st row in
    Backtester.skipped (Backtester.book r) = [] ->
    forall s, In s universe ->
      Backtester.current_holdings (Backtester.book r) s
      == Backtester.target_weights row s
         * (Backtester.value_before r - Backtester.cost r)
         / Backtester.current_prices row s.
Proof.
  intros universe self st row Hnd _ r Hsk s Hin.
  now apply process_date_targets.
Qed.

Lemma filled_date_reaches_target_shares_witness :
  NoDup ["A"; "B"]
  /\ (forall s, In s ["A"; "B"] ->
        ~ Backtester.current_prices Scenario.row_balanced s == 0)
  /\ Backtester.skipped (Backtester.book
       (Backtester.process_date ["A"; "B"] Scenario.frictionless
          (Backtester.initial_state Scenario.frictionless) Scenario.row_balanced)) = []
  /\ In "B" ["A"; "B"]
  /\ Backtester.current_holdings (Backtester.book
       (Backtester.process_date ["A"; "B"] Scenario.frictionless
          (Backtester.initial_state Scenario.frictionless) Scenario.row_balanced)) "B"
     == 1.
Proof.
  assert (Hin : In "B" ["A"; "B"]) by (right; left; reflexivity).
  assert (Hp : forall s, In s ["A"; "B"] ->
                ~ Backtester.current_prices Scenario.row_balanced s == 0).
  { intros s [<-|[<-|[]]]; vm_compute; discriminate. }
  split; [exact NoDup_AB|split; [exact Hp|split; [reflexivity|split; [exact Hin|]]]].
  pose proof (filled_date_reaches_target_shares ["A"; "B"] Scenario.frictionless
                (Backtester.initial_state Scenario.frictionless)
                Scenario.row_balanced NoDup_AB Hp eq_refl "B" Hin) as H.
  cbv zeta in H. rewrite H. reflexivity.
Defined.

(** X6.  On a date on which no buy is skipped and every price is non-zero,
    the cash left after the trades is the portfolio value after cost times
    one minus the sum of the target weights: targets that sum to one leave
    no cash, targets that sum to less leave the remainder uninvested. *)
Theorem filled_date_residual_cash :
  forall (universe : list string) (self : Backtester.Config)
         (st : Backtester.State) (row : Backtester.Row),
    NoDup universe ->
    (forall s, In s universe -> ~ Backtester.current_prices row s == 0) ->
    let r := Backtester.process_date universe self st row in
    Backtester.skipped (Backtester.book r) = [] ->
    Backtester.Cash (Backtester.snapshot r)
    == (Backtester.value_before r - Backtester.cost r)
       * (1 - Backtester.total universe (Backtester.target_weights row)).
Proof.
  intros universe self st row Hnd Hp r Hsk.
  pose proof (process_date_value universe self st row Hnd) as Hv. fold r in Hv.
  assert (Ha : Backtester.Asset_Value (Backtester.snapshot r)
               == (Backtester.value_before r - Backtester.cost r)
                  * Backtester.total universe (Backtester.target_weights row)).
  { change (Backtester.Asset_Value (Backtester.snapshot r))
      with (Np.sum (map (Backtester.mul
                           (Backtester.current_holdings (Backtester.book r))
                           (Backtester.current_prices row)) universe)).
    unfold Backtester.total, Backtester.values.
    rewrite <- sum_map_scale. apply sum_map_ext. intros s Hs.
    unfold Backtester.mul.
    pose proof (process_date_targets universe self st row s Hnd Hsk Hs) as Ht.
    fold r in Ht. rewrite Ht. field. now apply Hp. }
  lra.
Qed.

Lemma filled_date_residual_cash_witness :
  NoDup ["A"; "B"]
  /\ (forall s, In s ["A"; "B"] ->
        ~ Backtester.current_prices Scenario.row_balanced s == 0)
  /\ Backtester.skipped (Backtester.book
       (Backtester.process_date ["A"; "B"] Scenario.frictionless
          (Backtester.initial_state Scenario.frictionless) Scenario.row_balanced)) = []
  /\ Backtester.Cash (Backtester.snapshot
       (Backtester.process_date ["A"; "B"] Scenario.frictionless
          (Backtester.initial_state Scenario.frictionless) Scenario.row_balanced))
     == 0.
Proof.
  assert (Hp : forall s, In s ["A"; "B"] ->
                ~ Backtester.current_prices Scenario.row_balanced s == 0).
  { intros s [<-|[<-|[]]]; vm_compute; discriminate. }
  split; [exact NoDup_AB|split; [exact Hp|split; [reflexivity|]]].
  pose proof (filled_date_residual_cash ["A"; "B"] Scenario.frictionless
                (Backtester.initial_state Scenario.frictionless)
                Scenario.row_balanced NoDup_AB Hp eq_refl) as H.
  cbv zeta in H. rewrite H. reflexivity.
Defined.

(** X7.  With positive prices, trading never overdraws the account: if the
    cash left after paying the trade cost is non-negative, the cash recorded
    after the date's trades is non-negative too. *)
Theorem trading_keeps_cash_nonneg :
  forall (universe : list string) (self : Backtester.Config)
         (st : Backtester.State) (row : Backtester.Row),
    (forall s, In s universe -> 0 < Backtester.current_prices row s) ->
    let r := Backtester.process_date universe self st row in
    0 <= Backtester.cash st - Backtester.cost r ->
    0 <= Backtester.Cash (Backtester.snapshot r).
Proof.
  intros universe self st row Hp r Hc.
  refine (execute_trades_cash_nonneg (Backtester.deltas r)
            (Backtester.current_prices row) universe
            (Backtester.mkBook (Backtester.holdings st)
                               (Backtester.cash st - Backtester.cost r) [])
            _ Hc).
  intros s Hs. apply Qlt_le_weak. now apply Hp.
Qed.

Lemma trading_keeps_cash_nonneg_witness :
  (forall s, In s ["A"; "B"] ->
     0 < Backtester.current_prices Scenario.row_overweight s)
  /\ 0 <= Backtester.cash (Backtester.initial_state Backtester.default)
          - Backtester.cost
              (Backtester.process_date ["A"; "B"] Backtester.default
                 (Backtester.initial_state Backtester.default)
                 Scenario.row_overweight)
  /\ 0 <= Backtester.Cash (Backtester.snapshot
            (Backtester.process_date ["A"; "B"] Backtester.default
               (Backtester.initial_state Backtester.default)
               Scenario.row_overweight)).
Proof.
  assert (Hp : forall s, In s ["A"; "B"] ->
                0 < Backtester.current_prices Scenario.row_overweight s).
  { intros s [<-|[<-|[]]]; reflexivity. }
  assert (Hc : 0 <= Backtester.cash (Backtester.initial_state Backtester.default)
                    - Backtester.cost
                        (Backtester.process_date ["A"; "B"] Backtester.default
                           (Backtester.initial_state Backtester.default)
                           Scenario.row_overweight))
    by (vm_compute; discriminate).
  split; [exact Hp|split; [exact Hc|]].
  exact (trading_keeps_cash_nonneg ["A"; "B"] Backtester.default
           (Backtester.initial_state Backtester.default)
           Scenario.row_overweight Hp Hc).
Defined.

(** X8.  Every symbol reported as skipped on a date belongs to the universe,
    wanted a buy (positive share delta), and ends the date with exactly the
    holdings it started with. *)
Theorem skipped_symbols_are_unfilled_buys :
  forall (universe : list string) (self : Backtester.Config)
         (st : Backtester.State) (row : Backtester.Row),
    NoDup universe ->
    let r := Backtester.process_date universe self st row in
    forall s, In s (Backtester.skipped (Backtester.book r)) ->
      In s universe
      /\ 0 < Backtester.deltas r s
      /\ Backtester.current_holdings (Backtester.book r) s
         = Backtester.holdings st s.
Proof.
  intros universe self st row Hnd r s Hin.
  exact (execute_trades_skipped_spec (Backtester.deltas r)
           (Backtester.current_prices row) universe
           (Backtester.mkBook (Backtester.holdings st)
                              (Backtester.cash st - Backtester.cost r) [])
           s Hnd Hin (fun H => H)).
Qed.

Lemma skipped_symbols_are_unfilled_buys_witness :
  NoDup ["A"; "B"]
  /\ In "B" (Backtester.skipped (Backtester.book
       (Backtester.process_date ["A"; "B"] Scenario.frictionless
          (Backtester.initial_state Scenario.frictionless) Scenario.row_overweight)))
  /\ Backtester.current_holdings (Backtester.book
       (Backtester.process_date ["A"; "B"] Scenario.frictionless
          (Backtester.initial_state Scenario.frictionless) Scenario.row_overweight)) "B"
     = 0.
Proof.
  assert (Hin : In "B" (Backtester.skipped (Backtester.book
       (Backtester.process_date ["A"; "B"] Scenario.frictionless
          (Backtester.initial_state Scenario.frictionless) Scenario.row_overweight))))
    by (left; reflexivity).
  split; [exact NoDup_AB|split; [exact Hin|]].
  exact (proj2 (proj2 (skipped_symbols_are_unfilled_buys ["A"; "B"]
                         Scenario.frictionless
                         (Backtester.initial_state Scenario.frictionless)
                         Scenario.row_overweight NoDup_AB "B" Hin))).
Defined.

(* ================================================================= *)
(** ** Backtester: the run                                           *)
(* ================================================================= *)

Lemma iterate_dates (universe : list string) (self : Backtester.Config)
      (rows : list Backtester.RawRow) (st : Backtester.State) :
  Forall (fun r => Backtester.isnull_any universe (Backtester.raw_prices r) = false)
         rows ->
  map Backtester.Date
      (Backtester.portfolio_history_list (Backtester.iterate universe self st rows))
  = map Backtester.Date (Backtester.portfolio_history_list st)
    ++ map Backtester.raw_date rows.
Proof.
  intro H. revert st. induction H as [|r rows Hr _ IH]; intro st.
  - simpl. now rewrite app_nil_r.
  - unfold Backtester.iterate in *. cbn [fold_left]. rewrite Hr, IH.
    unfold Backtester.advance. cbn [Backtester.portfolio_history_list].
    rewrite map_app, <- app_assoc. reflexivity.
Qed.

Lemma dropna_complete (universe : list string) (rows : list Backtester.RawRow) :
  Forall (fun r => Backtester.isnull_any universe (Backtester.raw_prices r) = false
                   /\ Backtester.isnull_any universe (Backtester.raw_weights r) = false)
         (Backtester.dropna universe rows).
Proof.
  apply Forall_forall. intros r Hr. unfold Backtester.dropna in Hr.
  apply filter_In in Hr. destruct Hr as [_ Hr].
  apply negb_true_iff, orb_false_iff in Hr. exact Hr.
Qed.

(** X9.  A run that has at least one complete row records one history entry
    per row in which every price and every target weight is present, in row
    order and under that row's date; rows with a missing price or weight
    leave no entry. *)
Theorem run_backtest_records_complete_rows :
  forall (universe : list string) (self : Backtester.Config)
         (df_merged : list Backtester.RawRow),
    Backtester.dropna universe df_merged <> [] ->
    map Backtester.Date (Backtester.run_backtest universe self df_merged)
    = map Backtester.raw_date
        (filter (fun r =>
                   forallb (fun s => match Backtester.raw_prices r s,
                                           Backtester.raw_weights r s with
                                     | Some _, Some _ => true
                                     | _, _ => false
                                     end) universe)
                df_merged).
Proof.
  intros universe self rows _. unfold Backtester.run_backtest.
  rewrite iterate_dates.
  - simpl. f_equal. unfold Backtester.dropna. apply filter_ext. intro r.
    unfold Backtester.isnull_any.
    induction universe as [|s universe IH]; [reflexivity|].
    cbn [existsb forallb].
    destruct (Backtester.raw_prices r s), (Backtester.raw_weights r s);
      cbn [orb andb negb]; try (rewrite <- IH; clear IH).
    + reflexivity.
    + destruct (existsb _ universe); reflexivity.
    + reflexivity.
    + reflexivity.
  - eapply Forall_impl; [|apply dropna_complete]. intros r [H _]. exact H.
Qed.

Lemma run_backtest_records_complete_rows_witness :
  Backtester.dropna ["A"; "B"]
    [Backtester.mkRawRow "2020-01-02" (fun _ => Some 1) (fun _ => Some (1 # 2));
     Backtester.mkRawRow "2020-01-03"
       (fun s => if String.eqb s "B" then None else Some 1) (fun _ => Some (1 # 2));
     Backtester.mkRawRow "2020-01-06" (fun _ => Some 2) (fun _ => Some (1 # 2))]
  <> []
  /\ map Backtester.Date
       (Backtester.run_backtest ["A"; "B"] Scenario.frictionless
          [Backtester.mkRawRow "2020-01-02" (fun _ => Some 1) (fun _ => Some (1 # 2));
           Backtester.mkRawRow "2020-01-03"
             (fun s => if String.eqb s "B" then None else Some 1)
             (fun _ => Some (1 # 2));
           Backtester.mkRawRow "2020-01-06" (fun _ => Some 2) (fun _ => Some (1 # 2))])
     = ["2020-01-02"; "2020-01-06"].
Proof.
  assert (H : Backtester.dropna ["A"; "B"]
    [Backtester.mkRawRow "2020-01-02" (fun _ => Some 1) (fun _ => Some (1 # 2));
     Backtester.mkRawRow "2020-01-03"
       (fun s => if String.eqb s "B" then None else Some 1) (fun _ => Some (1 # 2));
     Backtester.mkRawRow "2020-01-06" (fun _ => Some 2) (fun _ => Some (1 # 2))]
    <> []) by discriminate.
  split; [exact H|].
  exact (run_backtest_records_complete_rows ["A"; "B"] Scenario.frictionless _ H).
Defined.

(* ================================================================= *)
(** ** Allocator: the problem handed to the solver                   *)
(* ================================================================= *)

(** X10.  What the allocator hands to the solver as constraints.
    - With a target risk: the volatility objective and exactly two
      dictionaries (sum to one, volatility equal to the target), whatever the
      risk-aversion parameter and the flags are; the target risk takes
      precedence when both parameters are given.
    - With only a risk aversion and the [sum_to_one] flag set: the sequence
      [('type', 'fun', {...})], the two keys of the first dictionary followed
      by a second sum-to-one dictionary.
    - With only a risk aversion and the flag not set: the single sum-to-one
      dictionary. *)
Theorem formulate_constraints :
  forall (mu : list Q) (cov : PortfolioOptimizer.Matrix)
         (constraints : PortfolioOptimizer.flags),
    let sum_to_one :=
      PortfolioOptimizer.mkConstraint "eq" PortfolioOptimizer.sum_minus_one in
    let annual_cov :=
      PortfolioOptimizer.scale_matrix cov PortfolioOptimizer.annualization_factor in
    (forall (tr : Q) (lam : option Q),
        exists p,
          PortfolioOptimizer.formulate mu cov (Some tr) lam constraints
            = (Py.Ret p, [])
          /\ PortfolioOptimizer.objective_function p
             = PortfolioOptimizer.portfolio_variance annual_cov
          /\ PortfolioOptimizer.cons p
             = PortfolioOptimizer.Cons_tuple
                 [PortfolioOptimizer.Item_dict sum_to_one;
                  PortfolioOptimizer.Item_dict
                    (PortfolioOptimizer.mkConstraint "eq"
                       (PortfolioOptimizer.volatility_minus_target annual_cov tr))])
    /\ (forall lam : Q,
          exists p,
            PortfolioOptimizer.formulate mu cov None (Some lam) constraints
              = (Py.Ret p, [])
            /\ PortfolioOptimizer.cons p
               = if PortfolioOptimizer.flag_set constraints "sum_to_one"
                 then PortfolioOptimizer.Cons_tuple
                        [PortfolioOptimizer.Item_key "type";
                         PortfolioOptimizer.Item_key "fun";
                         PortfolioOptimizer.Item_dict sum_to_one]
                 else PortfolioOptimizer.Cons_dict sum_to_one).
Proof.
  intros mu cov constraints sum_to_one annual_cov. split.
  - intros tr lam. unfold PortfolioOptimizer.formulate.
    cbn [PortfolioOptimizer.is_some negb Py.bind Py.ret fst snd app].
    destruct (PortfolioOptimizer.flag_set constraints "sum_to_one"
              && negb _); eexists; repeat split.
  - intro lam. unfold PortfolioOptimizer.formulate.
    cbn [PortfolioOptimizer.is_some negb Py.bind Py.ret fst snd app andb].
    rewrite andb_true_r.
    destruct (PortfolioOptimizer.flag_set constraints "sum_to_one");
      eexists; repeat split.
Qed.

(* ================================================================= *)
(** ** Allocator: outputs and solver calls                           *)
(* ================================================================= *)

Lemma calls_to_app (c : string) (t1 t2 : list Py.event) :
  Py.calls_to c (t1 ++ t2) = (Py.calls_to c t1 + Py.calls_to c t2)%nat.
Proof. unfold Py.calls_to. now rewrite filter_app, length_app. Qed.

Lemma lift_value {A} (o : Py.outcome A) : Py.value (Py.lift o) = o.
Proof. reflexivity. Qed.

Section AllocatorFacts.

Import PortfolioOptimizer.

Variable minimize :
  objective -> list Q -> option (list (Q * Q)) -> cons_value ->
  Py.outcome OptimizeResult.

(** The trace of [solve]: one entry into the solver, then at most one
    printed line. *)
Lemma solve_trace (n : nat) (p : Problem) :
  Py.trace (solve minimize n p) = [Py.Called "minimize"]
  \/ exists msg, Py.trace (solve minimize n p)
                 = [Py.Called "minimize"; Py.Printed msg].
Proof.
  destruct (minimize (objective_function p) (initial_weights p) (bounds p) (cons p))
    as [res|e] eqn:E.
  - destruct (success res) eqn:Hs.
    + rewrite (solve_converged minimize n p res E Hs). now left.
    + rewrite (solve_not_converged minimize n p res E Hs). right. eexists. reflexivity.
  - rewrite (solve_raised minimize n p e E). right. eexists. reflexivity.
Qed.

Lemma mvo_unfold_solve (mu : list Q) (cov : Matrix) (tr lam : option Q)
      (constraints : flags) (p : Problem) :
  mu <> [] ->
  formulate mu cov tr lam constraints = (Py.Ret p, []) ->
  mean_variance_optimization minimize mu cov tr lam constraints
  = solve minimize (List.length mu) p.
Proof.
  intros Hmu Hp. unfold mean_variance_optimization.
  destruct mu as [|m mu]; [contradiction|]. cbn [List.length Nat.eqb].
  rewrite Hp. unfold Py.bind. now destruct (solve minimize _ p).
Qed.

Lemma mvo_calls (mu : list Q) (cov : Matrix) (tr lam : option Q)
      (constraints : flags) :
  Py.calls_to "minimize"
    (Py.trace (mean_variance_optimization minimize mu cov tr lam constraints))
  = (if (List.length mu =? 0)%nat || negb (is_some tr || is_some lam)
     then 0 else 1)%nat
  /\ Py.calls_to "mean_variance_optimization"
       (Py.trace (mean_variance_optimization minimize mu cov tr lam constraints))
     = 0%nat.
Proof.
  destruct mu as [|m mu]; [split; reflexivity|].
  destruct (is_some tr || is_some lam) eqn:Hobj.
  - destruct (formulate_returns (m :: mu) cov tr lam constraints Hobj) as [p Hp].
    rewrite (mvo_unfold_solve (m :: mu) cov tr lam constraints p) by (discriminate || exact Hp).
    destruct (solve_trace (List.length (m :: mu)) p) as [E|[msg E]];
      rewrite E; split; reflexivity.
  - destruct tr; [discriminate Hobj|]. destruct lam; [discriminate Hobj|].
    split; reflexivity.
Qed.

End AllocatorFacts.

(** X11.  For a non-empty asset universe and a given objective, whenever the
    solver returns (converged or not) instead of raising, the allocator
    returns a vector whose components lie in [0,1] and sum to one, whether
    or not [long_only] was requested: the clip to [0,1] is unconditional. *)
Theorem allocator_output_valid_when_solver_returns :
  forall minimize (mu : list Q) (cov : PortfolioOptimizer.Matrix)
         (tr lam : option Q) (constraints : PortfolioOptimizer.flags)
         (p : PortfolioOptimizer.Problem) (res : PortfolioOptimizer.OptimizeResult),
    mu <> [] ->
    PortfolioOptimizer.formulate mu cov tr lam constraints = (Py.Ret p, []) ->
    minimize (PortfolioOptimizer.objective_function p)
             (PortfolioOptimizer.initial_weights p)
             (PortfolioOptimizer.bounds p) (PortfolioOptimizer.cons p)
      = Py.Ret res ->
    exists w,
      Py.value (PortfolioOptimizer.mean_variance_optimization
                  minimize mu cov tr lam constraints) = Py.Ret w
      /\ (forall v, In v w -> 0 <= v <= 1)
      /\ Np.sum w == 1.
Proof.
  intros minimize mu cov tr lam constraints p res Hmu Hp Hres.
  rewrite (mvo_unfold_solve minimize mu cov tr lam constraints p Hmu Hp).
  assert (Hn : (0 < List.length mu)%nat)
    by (destruct mu; [contradiction|simpl; lia]).
  destruct (PortfolioOptimizer.success res) eqn:Hs.
  - rewrite (solve_converged minimize _ p res Hres Hs).
    eexists. split; [reflexivity|].
    apply (renormalised_valid _ (PortfolioOptimizer.x res) Hn).
  - rewrite (solve_not_converged minimize _ p res Hres Hs).
    eexists. split; [reflexivity|]. split.
    + intro v. apply equal_weights_range.
    + now apply equal_weights_sum.
Qed.

Lemma allocator_output_valid_when_solver_returns_witness :
  [1 # 100; 2 # 100] <> []
  /\ exists w,
       Py.value (PortfolioOptimizer.mean_variance_optimization
                   (Scenario.solver_returns [3; -1]) [1 # 100; 2 # 100]
                   Scenario.cov_AB (Some (1 # 10)) None None) = Py.Ret w
       /\ (forall v, In v w -> 0 <= v <= 1)
       /\ Np.sum w == 1.
Proof.
  assert (H : [1 # 100; 2 # 100] <> (@nil Q)) by discriminate.
  split; [exact H|].
  exact (allocator_output_valid_when_solver_returns
           (Scenario.solver_returns [3; -1]) [1 # 100; 2 # 100] Scenario.cov_AB
           (Some (1 # 10)) None None _ _ H eq_refl eq_refl).
Defined.

(** X12.  The allocator enters the solver exactly once when the asset
    universe is non-empty and an objective parameter is given, and never
    otherwise (empty universe, or the [ValueError] case). *)
Theorem allocator_enters_solver_once :
  forall minimize (mu : list Q) (cov : PortfolioOptimizer.Matrix)
         (tr lam : option Q) (constraints : PortfolioOptimizer.flags),
    Py.calls_to "minimize"
      (Py.trace (PortfolioOptimizer.mean_variance_optimization
                   minimize mu cov tr lam constraints))
    = (if (List.length mu =? 0)%nat
          || negb (PortfolioOptimizer.is_some tr || PortfolioOptimizer.is_some lam)
       then 0 else 1)%nat.
Proof.
  intros. apply mvo_calls.
Qed.

(* ================================================================= *)
(** ** Strategy engine: labels, failures, calls                      *)
(* ================================================================= *)

Lemma print_enter_then {A} (msg callee : string) (m : Py.M A) :
  (Py.print msg ;;; Py.enter callee ;;; m)
  = (Py.value m, [Py.Printed msg; Py.Called callee] ++ Py.trace m).
Proof. destruct m as [[a|e] t]; reflexivity. Qed.

(** A constant vector with a positive entry at most one is turned into the
    equal-weight vector by the clip-and-renormalise step. *)
Lemma renormalise_constant (n m : nat) (c : Q) :
  (0 < n)%nat -> 0 < c -> c <= 1 ->
  let a := Np.clip (repeat c n) 0 1 in
  let w := if Np.Qneb (Np.sum a) 0
           then Np.div_scalar a (Np.sum a) else Np.equal_weights m in
  List.length w = n /\ forall v, In v w -> v == 1 / Np.of_nat n.
Proof.
  intros Hn Hc0 Hc1 a w.
  set (c' := Qmin (Qmax c 0) 1).
  assert (Hc' : c' == c).
  { unfold c'. rewrite Q.max_l by lra. apply Q.min_l. assumption. }
  assert (Ha : a = repeat c' n).
  { unfold a, Np.clip. apply map_repeat. }
  pose proof (of_nat_pos n Hn) as Hpos.
  assert (Hs : Np.sum a == Np.of_nat n * c).
  { rewrite Ha, sum_repeat, Hc'. reflexivity. }
  assert (Hnz : ~ Np.sum a == 0).
  { rewrite Hs. intro H. assert (0 < Np.of_nat n * c)
      by (apply Qmult_lt_0_compat; assumption). lra. }
  subst w. apply Qneb_true in Hnz. rewrite Hnz. apply Qneb_true in Hnz.
  set (s := Np.sum a) in *. clearbody s.
  unfold Np.div_scalar. rewrite Ha, map_repeat. split.
  - apply repeat_length.
  - intros v Hv. apply repeat_spec in Hv. subst v.
    rewrite Hs, Hc'. field. split; lra.
Qed.

Section SelectorFacts.

Import PortfolioOptimizer.

Variable minimize :
  objective -> list Q -> option (list (Q * Q)) -> cons_value ->
  Py.outcome OptimizeResult.

(** The three branches of the dispatch as one shape. *)
Lemma dispatch_shape (regime : string) (mu : list Q) (cov : Matrix) :
  exists (msg : string) (tr lam : option Q),
    is_some tr || is_some lam = true
    /\ StrategyEngine.dispatch minimize regime mu cov
       = (Py.value (mean_variance_optimization minimize mu cov tr lam
                      StrategyEngine.long_only_sum_to_one),
          [Py.Printed msg; Py.Called "mean_variance_optimization"]
          ++ Py.trace (mean_variance_optimization minimize mu cov tr lam
                         StrategyEngine.long_only_sum_to_one)).
Proof.
  unfold StrategyEngine.dispatch.
  destruct (String.eqb regime "High_Vol"); [|destruct (String.eqb regime "Low_Vol")];
    rewrite print_enter_then; do 3 eexists; (split; [|reflexivity]); reflexivity.
Qed.

Lemma clip_and_renormalize_calls (n : nat) (a : list Q) (c : string) :
  Py.calls_to c (Py.trace (StrategyEngine.clip_and_renormalize n a)) = 0%nat.
Proof.
  unfold StrategyEngine.clip_and_renormalize.
  destruct (Np.Qneb _ _); reflexivity.
Qed.

(** When the solver fails, the allocator answers with all ones or with
    equal weights. *)
Lemma mvo_on_failure (mu : list Q) (cov : Matrix) (tr lam : option Q)
      (constraints : flags) :
  (forall o w b c,
      (exists e, minimize o w b c = Py.Raise e)
      \/ (exists res, minimize o w b c = Py.Ret res /\ success res = false)) ->
  mu <> [] -> is_some tr || is_some lam = true ->
  Py.value (mean_variance_optimization minimize mu cov tr lam constraints)
    = Py.Ret (repeat 1 (List.length mu))
  \/ Py.value (mean_variance_optimization minimize mu cov tr lam constraints)
    = Py.Ret (repeat (1 / Np.of_nat (List.length mu)) (List.length mu)).
Proof.
  intros Hfail Hmu Hobj.
  destruct (formulate_returns mu cov tr lam constraints Hobj) as [p Hp].
  rewrite (mvo_unfold_solve minimize mu cov tr lam constraints p Hmu Hp).
  destruct (Hfail (objective_function p) (initial_weights p) (bounds p) (cons p))
    as [[e He]|[res [Hres Hs]]].
  - left. now rewrite (solve_raised minimize _ p e He).
  - right. rewrite (solve_not_converged minimize _ p res Hres Hs).
    now rewrite equal_weights_repeat.
Qed.

End SelectorFacts.

(** X13.  Any regime label other than 'High_Vol' and 'Low_Vol' (a misspelt
    or unknown label included) is handled as 'Normal_Vol': the selector
    returns the same weights for it on every window, and on a non-empty
    window the whole run (the allocator call, the solver call and what is
    printed) is the same.  On an empty window only the printed warning
    differs, which names the label. *)
Theorem unknown_regime_is_normal :
  forall minimize (current_regime : string)
         (lookback_returns : PortfolioOptimizer.DataFrame),
    current_regime <> "High_Vol" -> current_regime <> "Low_Vol" ->
    Py.value (StrategyEngine.generate_regime_specific_weights
                minimize current_regime lookback_returns)
    = Py.value (StrategyEngine.generate_regime_specific_weights
                  minimize "Normal_Vol" lookback_returns)
    /\ (PortfolioOptimizer.empty lookback_returns = false ->
          StrategyEngine.generate_regime_specific_weights
            minimize current_regime lookback_returns
          = StrategyEngine.generate_regime_specific_weights
              minimize "Normal_Vol" lookback_returns).
Proof.
  intros minimize regime window Hh Hl.
  apply String.eqb_neq in Hh. apply String.eqb_neq in Hl.
  unfold StrategyEngine.generate_regime_specific_weights, StrategyEngine.dispatch.
  destruct (PortfolioOptimizer.empty window).
  - split; [reflexivity|discriminate].
  - rewrite Hh, Hl. split; [reflexivity|intros _; reflexivity].
Qed.

Lemma unknown_regime_is_normal_witness :
  "high_vol" <> "High_Vol" /\ "high_vol" <> "Low_Vol"
  /\ PortfolioOptimizer.empty Scenario.window_AB = false
  /\ StrategyEngine.generate_regime_specific_weights
       (Scenario.solver_returns [3; 1]) "high_vol" Scenario.window_AB
     = StrategyEngine.generate_regime_specific_weights
         (Scenario.solver_returns [3; 1]) "Normal_Vol" Scenario.window_AB.
Proof.
  assert (H1 : "high_vol" <> "High_Vol") by discriminate.
  assert (H2 : "high_vol" <> "Low_Vol") by discriminate.
  split; [exact H1|split; [exact H2|split; [reflexivity|]]].
  exact (proj2 (unknown_regime_is_normal (Scenario.solver_returns [3; 1]) "high_vol"
                  Scenario.window_AB H1 H2) eq_refl).
Defined.

(** X14.  If the solver fails on every problem (it raises, or it returns
    without success), then for every regime label and every non-empty window
    the selector returns one weight per column, each equal to 1/N: the
    all-ones vector that the allocator returns after an exception is turned
    into equal weights by the selector's re-normalisation. *)
Theorem selector_equal_weights_on_solver_failure :
  forall minimize (current_regime : string)
         (lookback_returns : PortfolioOptimizer.DataFrame),
    (forall o w b c,
        (exists e, minimize o w b c = Py.Raise e)
        \/ (exists res, minimize o w b c = Py.Ret res
                        /\ PortfolioOptimizer.success res = false)) ->
    PortfolioOptimizer.empty lookback_returns = false ->
    exists w,
      Py.value (StrategyEngine.generate_regime_specific_weights
                  minimize current_regime lookback_returns) = Py.Ret w
      /\ List.length w = PortfolioOptimizer.shape1 lookback_returns
      /\ forall v, In v w ->
           v == 1 / Np.of_nat (PortfolioOptimizer.shape1 lookback_returns).
Proof.
  intros minimize regime window Hfail Hne.
  destruct (not_empty_shape window Hne) as [Hn _].
  set (n := PortfolioOptimizer.shape1 window) in *.
  set (mu := PortfolioOptimizer.DataFrame_mean window).
  assert (Hlen : List.length mu = n) by apply length_DataFrame_mean.
  assert (Hmu : mu <> []) by (intros E; rewrite E in Hlen; simpl in Hlen; lia).
  pose proof (of_nat_pos n Hn) as Hpos.
  destruct (dispatch_shape minimize regime mu
              (PortfolioOptimizer.DataFrame_cov window))
    as [msg [tr [lam [Hobj Hd]]]].
  assert (Hval : forall a,
             Py.value (StrategyEngine.dispatch minimize regime mu
                         (PortfolioOptimizer.DataFrame_cov window)) = Py.Ret a ->
             Py.value (StrategyEngine.generate_regime_specific_weights
                         minimize regime window)
             = Py.Ret (if Np.Qneb (Np.sum (Np.clip a 0 1)) 0
                       then Np.div_scalar (Np.clip a 0 1) (Np.sum (Np.clip a 0 1))
                       else Np.equal_weights n)).
  { intros a Ha. unfold StrategyEngine.generate_regime_specific_weights.
    rewrite Hne. fold mu. rewrite (bind_value _ _ a Ha).
    apply clip_and_renormalize_value. }
  destruct (mvo_on_failure minimize mu
              (PortfolioOptimizer.DataFrame_cov window) tr lam
              StrategyEngine.long_only_sum_to_one Hfail Hmu Hobj) as [E|E];
    rewrite Hlen in E.
  - eexists. split; [apply Hval; rewrite Hd; exact E|].
    apply (renormalise_constant n n 1 Hn); lra.
  - eexists. split; [apply Hval; rewrite Hd; exact E|].
    apply (renormalise_constant n n (1 / Np.of_nat n) Hn).
    + apply Qlt_shift_div_l; [assumption|lra].
    + assert (0 <= 1 / Np.of_nat n <= 1) as [_ H]; [|exact H].
      apply (equal_weights_range n). rewrite equal_weights_repeat.
      destruct n; [lia|now left].
Qed.

Lemma selector_equal_weights_on_solver_failure_witness :
  (forall o w b c,
      (exists e, Scenario.solver_raises o w b c = Py.Raise e)
      \/ (exists res, Scenario.solver_raises o w b c = Py.Ret res
                      /\ PortfolioOptimizer.success res = false))
  /\ PortfolioOptimizer.empty Scenario.window_AB = false
  /\ exists w,
       Py.value (StrategyEngine.generate_regime_specific_weights
                   Scenario.solver_raises "Low_Vol" Scenario.window_AB) = Py.Ret w
       /\ List.length w = 2%nat
       /\ forall v, In v w -> v == 1 / Np.of_nat 2.
Proof.
  assert (H : forall o w b c,
      (exists e, Scenario.solver_raises o w b c = Py.Raise e)
      \/ (exists res, Scenario.solver_raises o w b c = Py.Ret res
                      /\ PortfolioOptimizer.success res = false)).
  { intros. left. eexists. reflexivity. }
  split; [exact H|split; [reflexivity|]].
  exact (selector_equal_weights_on_solver_failure Scenario.solver_raises "Low_Vol"
           Scenario.window_AB H eq_refl).
Defined.

(** X15.  The selector never raises: for every solver, regime label and
    window it returns a vector.  It enters the allocator, and through it the
    solver, exactly once when the window is non-empty and not at all when
    the window is empty. *)
Theorem selector_always_returns :
  forall minimize (current_regime : string)
         (lookback_returns : PortfolioOptimizer.DataFrame),
    let run := StrategyEngine.generate_regime_specific_weights
                 minimize current_regime lookback_returns in
    let expected := if PortfolioOptimizer.empty lookback_returns
                    then 0%nat else 1%nat in
    (exists w, Py.value run = Py.Ret w)
    /\ Py.calls_to "mean_variance_optimization" (Py.trace run) = expected
    /\ Py.calls_to "minimize" (Py.trace run) = expected.
Proof.
  intros minimize regime window run expected. subst run expected.
  unfold StrategyEngine.generate_regime_specific_weights.
  destruct (PortfolioOptimizer.empty window) eqn:Hne.
  - split; [eexists; reflexivity|split; reflexivity].
  - destruct (not_empty_shape window Hne) as [Hn _].
    set (mu := PortfolioOptimizer.DataFrame_mean window).
    set (cov := PortfolioOptimizer.DataFrame_cov window).
    assert (Hlen : List.length mu = PortfolioOptimizer.shape1 window)
      by apply length_DataFrame_mean.
    destruct (dispatch_returns minimize regime mu cov) as [a Ha].
    destruct (dispatch_shape minimize regime mu cov) as [msg [tr [lam [Hobj Hd]]]].
    destruct (mvo_calls minimize mu cov tr lam StrategyEngine.long_only_sum_to_one)
      as [Hc1 Hc2].
    rewrite Hobj in Hc1.
    assert (Hz : (List.length mu =? 0)%nat = false) by (apply Nat.eqb_neq; lia).
    rewrite Hz in Hc1. cbn [orb negb] in Hc1.
    split; [|split].
    + rewrite (bind_value _ _ a Ha), clip_and_renormalize_value. eexists. reflexivity.
    + rewrite (bind_trace _ _ a Ha), calls_to_app, clip_and_renormalize_calls.
      rewrite Hd. unfold Py.trace at 1. cbn [snd].
      rewrite calls_to_app, Hc2. reflexivity.
    + rewrite (bind_trace _ _ a Ha), calls_to_app, clip_and_renormalize_calls.
      rewrite Hd. unfold Py.trace at 1. cbn [snd].
      rewrite calls_to_app, Hc1. reflexivity.
Qed.

(* ================================================================= *)
(** ** Regime classifier: outcomes                                   *)
(* ================================================================= *)

Lemma get_column_none (df : MarketAnalyzer.Frame) (name : string) :
  MarketAnalyzer.get_column df name = None <-> ~ In name (map fst df).
Proof.
  induction df as [|[c cells] df IH]; simpl.
  - split; [intros _ []|reflexivity].
  - destruct (String.eqb c name) eqn:E.
    + apply String.eqb_eq in E. split; [discriminate|]. intro H. exfalso. apply H. now left.
    + apply String.eqb_neq in E. rewrite IH. split.
      * intros H [Hc|Hin]; [contradiction|now apply H].
      * intros H Hin. apply H. now right.
Qed.

(** X16.  The classifier raises [ValueError], with nothing printed, exactly
    when the frame has no column of the requested name; otherwise it returns
    one label per row, each of which is 'Low_Vol', 'Normal_Vol' or
    'High_Vol'. *)
Theorem identify_regimes_outcome :
  forall (df : MarketAnalyzer.Frame) (vol_col : string)
         (high_threshold low_threshold : Q),
    let run := MarketAnalyzer.identify_regimes df vol_col
                 high_threshold low_threshold in
    (~ In vol_col (map fst df) ->
       run = (Py.Raise (Py.ValueError
                "DataFrame must contain the volatility column."), []))
    /\ (In vol_col (map fst df) ->
          exists (vol : list (option Q)) (regime : list string),
            MarketAnalyzer.get_column df vol_col = Some vol
            /\ Py.value run = Py.Ret regime
            /\ List.length regime = List.length vol
            /\ forall label, In label regime ->
                 label = "Low_Vol" \/ label = "Normal_Vol" \/ label = "High_Vol").
Proof.
  intros df vol_col high low run. subst run.
  unfold MarketAnalyzer.identify_regimes. split.
  - intro H. apply get_column_none in H. now rewrite H.
  - intro Hin.
    destruct (MarketAnalyzer.get_column df vol_col) as [vol|] eqn:E.
    + exists vol. eexists. split; [reflexivity|]. rewrite assign_twice.
      split; [reflexivity|]. split; [apply length_map|].
      intros label Hl. apply in_map_iff in Hl. destruct Hl as [c [<- _]].
      destruct c as [v|]; [|now right; left].
      destruct (Qle_bool v low); [now left|].
      destruct (Qle_bool high v); [now right; right|now right; left].
    + apply get_column_none in E. contradiction.
Qed.

Lemma identify_regimes_outcome_witness :
  ~ In "Vol" (map fst Scenario.frame_mixed)
  /\ MarketAnalyzer.identify_regimes Scenario.frame_mixed "Vol" (15 # 1000) (5 # 1000)
     = (Py.Raise (Py.ValueError
          "DataFrame must contain the volatility column."), []).
Proof.
  assert (H : ~ In "Vol" (map fst Scenario.frame_mixed)).
  { simpl. intros [H|[]]. discriminate H. }
  split; [exact H|].
  exact (proj1 (identify_regimes_outcome Scenario.frame_mixed "Vol"
                  (15 # 1000) (5 # 1000)) H).
Defined.

(* ================================================================= *)
(** ** Performance metrics: returns                                  *)
(* ================================================================= *)

Lemma div_finite (a b : Q) : ~ b == 0 -> Metrics.div a b = Metrics.Fin (a / b).
Proof.
  intro H. unfold Metrics.div.
  destruct (Qeq_bool b 0) eqn:E; [|reflexivity].
  apply Qeq_bool_iff in E. contradiction.
Qed.

Lemma dropna_finite (rs : list Q) :
  Metrics.dropna (map Metrics.Fin rs) = map Metrics.Fin rs.
Proof.
  unfold Metrics.dropna. induction rs as [|r rs IH]; simpl; [reflexivity|].
  now rewrite IH.
Qed.

(** Returns of a series without zeros, and their running product started
    from [acc]. *)
Lemma pct_change_from_spec (ps : list Q) :
  forall prev : Q,
    ~ prev == 0 -> (forall v, In v ps -> ~ v == 0) ->
    exists rs : list Q,
      Metrics.pct_change_from prev ps = map Metrics.Fin rs
      /\ List.length rs = List.length ps
      /\ forall (acc : Q) (i : nat) (p : Q),
           nth_error ps i = Some p ->
           exists c,
             nth_error (Metrics.cumprod_from acc (map (fun r => 1 + r) rs)) i = Some c
             /\ c == acc * p / prev.
Proof.
  induction ps as [|p0 ps IH]; intros prev Hprev Hps.
  - exists []. repeat split. intros acc [|i] p H; discriminate H.
  - assert (Hp0 : ~ p0 == 0) by (apply Hps; now left).
    destruct (IH p0 Hp0 (fun v Hv => Hps v (or_intror Hv))) as [rs [Hrs [Hlen Hcum]]].
    exists (p0 / prev - 1 :: rs). split; [|split].
    + cbn [Metrics.pct_change_from map]. rewrite div_finite by assumption.
      cbn [Metrics.sub_scalar]. now rewrite Hrs.
    + simpl. now rewrite Hlen.
    + intros acc [|i] p Hp; cbn [map Metrics.cumprod_from nth_error] in *.
      * inversion Hp; subst. eexists. split; [reflexivity|]. field. assumption.
      * destruct (Hcum (acc * (1 + (p0 / prev - 1))) i p Hp) as [c [Hc Hv]].
        exists c. split; [exact Hc|]. rewrite Hv. field. now split.
Qed.

(** X17.  For a value series without zeros, the daily returns are all
    finite, one fewer than the values, and compounding them gives back the
    value path relative to its start: the cumulative return at position [i]
    is the value at position [i+1] divided by the first value. *)
Theorem cumulative_returns_recover_values :
  forall (p0 : Q) (ps : list Q),
    (forall v, In v (p0 :: ps) -> ~ v == 0) ->
    exists rs : list Q,
      Metrics.calculate_returns (p0 :: ps) = map Metrics.Fin rs
      /\ List.length rs = List.length ps
      /\ forall (i : nat) (p : Q),
           nth_error ps i = Some p ->
           exists c,
             nth_error (Metrics.calculate_cumulative_returns rs) i = Some c
             /\ c == p / p0.
Proof.
  intros p0 ps Hnz.
  assert (Hp0 : ~ p0 == 0) by (apply Hnz; now left).
  destruct ps as [|p1 ps].
  - exists []. repeat split. intros [|i] p H; discriminate H.
  - assert (Hp1 : ~ p1 == 0) by (apply Hnz; right; now left).
    destruct (pct_change_from_spec ps p1 Hp1
                (fun v Hv => Hnz v (or_intror (or_intror Hv))))
      as [rs [Hrs [Hlen Hcum]]].
    exists (p1 / p0 - 1 :: rs). split; [|split].
    + unfold Metrics.calculate_returns.
      cbn [Metrics.pct_change Metrics.pct_change_from].
      rewrite div_finite by assumption. cbn [Metrics.sub_scalar]. rewrite Hrs.
      change (Metrics.dropna (Metrics.NaN :: ?l)) with (Metrics.dropna l).
      exact (dropna_finite (p1 / p0 - 1 :: rs)).
    + simpl. now rewrite Hlen.
    + intros [|i] p Hp; unfold Metrics.calculate_cumulative_returns;
        cbn [map Metrics.cumprod nth_error] in *.
      * inversion Hp; subst. eexists. split; [reflexivity|]. field. assumption.
      * destruct (Hcum (1 + (p1 / p0 - 1)) i p Hp) as [c [Hc Hv]].
        exists c. split; [exact Hc|]. rewrite Hv. field. now split.
Qed.

Lemma cumulative_returns_recover_values_witness :
  (forall v, In v [100; 110; 99] -> ~ v == 0)
  /\ exists rs : list Q,
       Metrics.calculate_returns [100; 110; 99] = map Metrics.Fin rs
       /\ List.length rs = 2%nat.
Proof.
  assert (H : forall v, In v [100; 110; 99] -> ~ v == 0).
  { intros v [<-|[<-|[<-|[]]]]; discriminate. }
  split; [exact H|].
  destruct (cumulative_returns_recover_values 100 [110; 99] H) as [rs [Hr [Hl _]]].
  exists rs. split; [exact Hr|exact Hl].
Defined.

(* ================================================================= *)
(** ** Performance metrics: maximum drawdown                         *)
(* ================================================================= *)

Lemma drawdown_le (a b M : Q) :
  0 < a -> a <= M -> 0 < b -> (b - M) / M <= (b - a) / a.
Proof.
  intros Ha HM Hb.
  assert (0 < M) by lra.
  apply Qle_shift_div_l; [assumption|].
  setoid_replace ((b - M) / M * a) with (((b - M) * a) / M) by (field; lra).
  apply Qle_shift_div_r; [assumption|].
  nra.
Qed.

(** The minimum of a non-empty series of finite cells is one of its cells
    and lies below all of them. *)
Lemma series_min_spec (l : list Metrics.float) :
  l <> [] -> (forall v, In v l -> exists q, v = Metrics.Fin q) ->
  exists d, Metrics.series_min l = Metrics.Fin d
            /\ (forall q, In (Metrics.Fin q) l -> d <= q)
            /\ (exists q, In (Metrics.Fin q) l /\ d == q).
Proof.
  induction l as [|v l IH]; intros Hne Hfin; [contradiction|].
  destruct (Hfin v (or_introl eq_refl)) as [u ->].
  destruct l as [|v' l].
  - exists u. split; [reflexivity|]. split.
    + intros q [H|[]]. inversion H; subst. lra.
    + exists u. split; [now left|reflexivity].
  - destruct (IH ltac:(discriminate) (fun x Hx => Hfin x (or_intror Hx)))
      as [d' [Hd' [Hlow [q' [Hq' Heq]]]]].
    exists (Qmin u d'). split; [|split].
    + change (Metrics.series_min (Metrics.Fin u :: v' :: l))
        with (Metrics.min2 (Metrics.Fin u) (Metrics.series_min (v' :: l))).
      now rewrite Hd'.
    + intros q [H|H].
      * inversion H; subst. apply Q.le_min_l.
      * pose proof (Hlow q H). pose proof (Q.le_min_r u d'). lra.
    + destruct (Q.min_dec u d') as [E|E].
      * exists u. split; [now left|exact E].
      * exists q'. split; [now right|]. now rewrite E.
Qed.

(** The drawdown cells computed from a running maximum [m] onwards: at
    position [j] the cell is [(b - M) / M] for the value [b] at [j] and the
    running maximum [M], which dominates [m] and the values up to [j] and is
    one of them. *)
Lemma drawdowns_from_spec (vs : list Q) :
  forall (m : Q), 0 < m -> (forall v, In v vs -> 0 < v) ->
  forall (j : nat) (b : Q), nth_error vs j = Some b ->
    exists q M : Q,
      nth_error (Metrics.div_series
                   (Np.zip_with Qminus vs (Metrics.cummax_from m vs))
                   (Metrics.cummax_from m vs)) j = Some (Metrics.Fin q)
      /\ q == (b - M) / M /\ 0 < M /\ m <= M
      /\ (forall i a, (i <= j)%nat -> nth_error vs i = Some a -> a <= M)
      /\ (M == m \/ exists i a, (i <= j)%nat /\ nth_error vs i = Some a /\ M == a).
Proof.
  induction vs as [|v vs IH]; intros m Hm Hpos j b Hb.
  - destruct j; discriminate Hb.
  - assert (Hv : 0 < v) by (apply Hpos; now left).
    pose proof (Q.le_max_l m v) as Hl. pose proof (Q.le_max_r m v) as Hr.
    assert (HM0 : 0 < Qmax m v) by lra.
    cbn [Metrics.cummax_from Np.zip_with Metrics.div_series].
    destruct j as [|j].
    + inversion Hb; subst b. exists ((v - Qmax m v) / Qmax m v), (Qmax m v).
      split; [|split; [reflexivity|split; [assumption|split; [assumption|split]]]].
      * cbn [nth_error]. now rewrite div_finite by lra.
      * intros i a Hi Ha. assert (i = 0%nat) by lia. subst i.
        inversion Ha; subst. assumption.
      * destruct (Q.max_dec m v) as [E|E]; [now left|].
        right. exists 0%nat, v. now repeat split.
    + destruct (IH (Qmax m v) HM0 (fun x Hx => Hpos x (or_intror Hx)) j b Hb)
        as [q [M [Hq [Hqv [HMpos [HMge [Hdom Hprov]]]]]]].
      exists q, M. split; [exact Hq|].
      split; [exact Hqv|split; [exact HMpos|split; [lra|split]]].
      * intros [|i] a Hi Ha.
        -- inversion Ha; subst. lra.
        -- apply (Hdom i a); [lia|exact Ha].
      * destruct Hprov as [E|[i [a [Hi [Ha E]]]]].
        -- destruct (Q.max_dec m v) as [E'|E'].
           ++ left. now rewrite E.
           ++ right. exists 0%nat, v. split; [lia|]. split; [reflexivity|].
              now rewrite E.
        -- right. exists (S i), a. split; [lia|]. now split.
Qed.

Lemma length_drawdowns_from (vs : list Q) (m : Q) :
  List.length (Metrics.div_series
                 (Np.zip_with Qminus vs (Metrics.cummax_from m vs))
                 (Metrics.cummax_from m vs)) = List.length vs.
Proof.
  revert m. induction vs as [|v vs IH]; intro m; [reflexivity|].
  cbn [Metrics.cummax_from Np.zip_with Metrics.div_series List.length].
  now rewrite IH.
Qed.

(** The maximum drawdown of a positive series is the least relative change
    from an earlier to a later value. *)
Lemma max_drawdown_spec (v0 : Q) (vs : list Q) :
  (forall v, In v (v0 :: vs) -> 0 < v) ->
  exists d : Q,
    Metrics.calculate_max_drawdown (v0 :: vs) = Metrics.Fin d
    /\ (forall i j a b, (i <= j)%nat ->
          nth_error (v0 :: vs) i = Some a -> nth_error (v0 :: vs) j = Some b ->
          d <= (b - a) / a)
    /\ (exists i j a b, (i <= j)%nat
          /\ nth_error (v0 :: vs) i = Some a /\ nth_error (v0 :: vs) j = Some b
          /\ d == (b - a) / a).
Proof.
  intro Hpos.
  assert (Hv0 : 0 < v0) by (apply Hpos; now left).
  assert (Hvs : forall v, In v vs -> 0 < v) by (intros v Hv; apply Hpos; now right).
  set (tail := Metrics.div_series
                 (Np.zip_with Qminus vs (Metrics.cummax_from v0 vs))
                 (Metrics.cummax_from v0 vs)).
  assert (Hdd : Metrics.calculate_max_drawdown (v0 :: vs)
                = Metrics.series_min (Metrics.Fin ((v0 - v0) / v0) :: tail)).
  { unfold Metrics.calculate_max_drawdown.
    cbn [Metrics.cummax Np.zip_with Metrics.div_series].
    now rewrite div_finite by lra. }
  (* every cell, with its running maximum *)
  assert (Hcell : forall j b, nth_error (v0 :: vs) j = Some b ->
            exists q M : Q,
              nth_error (Metrics.Fin ((v0 - v0) / v0) :: tail) j = Some (Metrics.Fin q)
              /\ q == (b - M) / M /\ 0 < M
              /\ (forall i a, (i <= j)%nat -> nth_error (v0 :: vs) i = Some a -> a <= M)
              /\ (exists i a, (i <= j)%nat /\ nth_error (v0 :: vs) i = Some a /\ M == a)).
  { intros [|j] b Hb.
    - inversion Hb; subst b. exists ((v0 - v0) / v0), v0.
      split; [reflexivity|split; [reflexivity|split; [assumption|split]]].
      + intros i a Hi Ha. assert (i = 0%nat) by lia. subst i.
        inversion Ha; subst. lra.
      + exists 0%nat, v0. now repeat split.
    - destruct (drawdowns_from_spec vs v0 Hv0 Hvs j b Hb)
        as [q [M [Hq [Hqv [HMpos [HMge [Hdom Hprov]]]]]]].
      exists q, M. split; [exact Hq|split; [exact Hqv|split; [exact HMpos|split]]].
      + intros [|i] a Hi Ha.
        * inversion Ha; subst. exact HMge.
        * apply (Hdom i a); [lia|exact Ha].
      + destruct Hprov as [E|[i [a [Hi [Ha E]]]]].
        * exists 0%nat, v0. split; [lia|]. now split.
        * exists (S i), a. split; [lia|]. now split. }
  assert (Hlen : List.length (Metrics.Fin ((v0 - v0) / v0) :: tail)
                 = List.length (v0 :: vs)).
  { simpl. unfold tail. now rewrite length_drawdowns_from. }
  assert (Hfin : forall x, In x (Metrics.Fin ((v0 - v0) / v0) :: tail) ->
                   exists q, x = Metrics.Fin q).
  { intros x Hx. apply In_nth_error in Hx. destruct Hx as [j Hj].
    assert (Hlt : (j < List.length (v0 :: vs))%nat).
    { rewrite <- Hlen. apply nth_error_Some. congruence. }
    destruct (nth_error (v0 :: vs) j) as [b|] eqn:Hb;
      [|apply nth_error_None in Hb; lia].
    destruct (Hcell j b Hb) as [q [_ [Hq _]]].
    exists q. congruence. }
  assert (Hne : Metrics.Fin ((v0 - v0) / v0) :: tail <> []) by discriminate.
  destruct (series_min_spec _ Hne Hfin) as [d [Hd [Hlow [q0 [Hq0 Heq]]]]].
  exists d. split; [now rewrite Hdd|]. split.
  - intros i j a b Hij Ha Hb.
    destruct (Hcell j b Hb) as [q [M [Hq [Hqv [HMpos [Hdom _]]]]]].
    assert (Hdq : d <= q) by (apply Hlow; eapply nth_error_In; exact Hq).
    assert (Ha0 : 0 < a) by (apply Hpos; eapply nth_error_In; exact Ha).
    assert (Hb0 : 0 < b) by (apply Hpos; eapply nth_error_In; exact Hb).
    pose proof (drawdown_le a b M Ha0 (Hdom i a Hij Ha) Hb0). lra.
  - apply In_nth_error in Hq0. destruct Hq0 as [j Hj].
    assert (Hlt : (j < List.length (v0 :: vs))%nat).
    { rewrite <- Hlen. apply nth_error_Some. congruence. }
    destruct (nth_error (v0 :: vs) j) as [b|] eqn:Hb;
      [|apply nth_error_None in Hb; lia].
    destruct (Hcell j b Hb) as [q [M [Hq [Hqv [HMpos [_ [i [a [Hi [Ha E]]]]]]]]]].
    exists i, j, a, b. split; [exact Hi|split; [exact Ha|split; [exact Hb|]]].
    assert (q = q0) by congruence. subst q0.
    assert (Ha0 : ~ a == 0).
    { assert (0 < a) by (apply Hpos; eapply nth_error_In; exact Ha). lra. }
    rewrite Heq, Hqv, E. reflexivity.
Qed.

Lemma max_drawdown_range_aux (v0 : Q) (vs : list Q) :
  (forall v, In v (v0 :: vs) -> 0 < v) ->
  exists d : Q,
    Metrics.calculate_max_drawdown (v0 :: vs) = Metrics.Fin d
    /\ -1 < d /\ d <= 0
    /\ (d == 0 <->
        forall i j a b, (i <= j)%nat ->
          nth_error (v0 :: vs) i = Some a -> nth_error (v0 :: vs) j = Some b ->
          a <= b).
Proof.
  intro Hpos.
  destruct (max_drawdown_spec v0 vs Hpos)
    as [d [Hd [Hlow [i [j [a [b [Hij [Ha [Hb Heq]]]]]]]]]].
  assert (Hv0 : 0 < v0) by (apply Hpos; now left).
  assert (Ha0 : 0 < a) by (apply Hpos; eapply nth_error_In; exact Ha).
  assert (Hb0 : 0 < b) by (apply Hpos; eapply nth_error_In; exact Hb).
  assert (Hle0 : d <= 0).
  { pose proof (Hlow 0%nat 0%nat v0 v0 (le_n 0) eq_refl eq_refl) as H.
    setoid_replace ((v0 - v0) / v0) with 0 in H by (field; lra). exact H. }
  exists d. split; [exact Hd|]. split; [|split; [exact Hle0|split]].
  - rewrite Heq. apply Qlt_shift_div_l; [assumption|lra].
  - intros Hz i' j' a' b' Hij' Ha' Hb'.
    assert (Ha'0 : 0 < a') by (apply Hpos; eapply nth_error_In; exact Ha').
    pose proof (Hlow i' j' a' b' Hij' Ha' Hb') as H.
    destruct (Qlt_le_dec b' a') as [Hlt|Hge]; [|exact Hge].
    exfalso.
    assert ((b' - a') / a' < 0) by (apply Qlt_shift_div_r; [assumption|lra]).
    lra.
  - intros Hmono. pose proof (Hmono i j a b Hij Ha Hb) as Hab.
    assert (0 <= (b - a) / a) by (apply Qle_shift_div_l; [assumption|lra]).
    lra.
Qed.

(** X18.  The maximum drawdown of a non-empty series of positive values is
    the least relative change [(b - a) / a] from a value [a] to a value [b]
    at the same or a later position: it is below every such change, and it
    is one of them. *)
Theorem max_drawdown_is_worst_peak_to_later_drop :
  forall portfolio_values : list Q,
    portfolio_values <> [] ->
    (forall v, In v portfolio_values -> 0 < v) ->
    exists d : Q,
      Metrics.calculate_max_drawdown portfolio_values = Metrics.Fin d
      /\ (forall i j a b, (i <= j)%nat ->
            nth_error portfolio_values i = Some a ->
            nth_error portfolio_values j = Some b ->
            d <= (b - a) / a)
      /\ (exists i j a b, (i <= j)%nat
            /\ nth_error portfolio_values i = Some a
            /\ nth_error portfolio_values j = Some b
            /\ d == (b - a) / a).
Proof.
  intros [|v0 vs] Hne Hpos; [contradiction|]. now apply max_drawdown_spec.
Qed.

Lemma max_drawdown_is_worst_peak_to_later_drop_witness :
  [100; 120; 90; 110] <> []
  /\ (forall v, In v [100; 120; 90; 110] -> 0 < v)
  /\ exists d : Q,
       Metrics.calculate_max_drawdown [100; 120; 90; 110] = Metrics.Fin d
       /\ d <= (90 - 120) / 120.
Proof.
  assert (H1 : [100; 120; 90; 110] <> (@nil Q)) by discriminate.
  assert (H2 : forall v, In v [100; 120; 90; 110] -> 0 < v).
  { intros v [<-|[<-|[<-|[<-|[]]]]]; reflexivity. }
  split; [exact H1|split; [exact H2|]].
  destruct (max_drawdown_is_worst_peak_to_later_drop [100; 120; 90; 110] H1 H2)
    as [d [Hd [Hlow _]]].
  exists d. split; [exact Hd|].
  exact (Hlow 1%nat 2%nat 120 90 (le_S 1 1 (le_n 1)) eq_refl eq_refl).
Defined.

(** X19.  The maximum drawdown of an empty series is NaN; for a non-empty
    series of positive values it is a finite number in (-1, 0]. *)
Theorem max_drawdown_range :
  Metrics.calculate_max_drawdown [] = Metrics.NaN
  /\ forall portfolio_values : list Q,
       portfolio_values <> [] ->
       (forall v, In v portfolio_values -> 0 < v) ->
       exists d : Q,
         Metrics.calculate_max_drawdown portfolio_values = Metrics.Fin d
         /\ -1 < d /\ d <= 0.
Proof.
  split; [reflexivity|].
  intros [|v0 vs] Hne Hpos; [contradiction|].
  destruct (max_drawdown_range_aux v0 vs Hpos) as [d [Hd [Hlo [Hhi _]]]].
  exists d. now repeat split.
Qed.

Lemma max_drawdown_range_witness :
  [100; 120; 90; 110] <> []
  /\ (forall v, In v [100; 120; 90; 110] -> 0 < v)
  /\ exists d : Q,
       Metrics.calculate_max_drawdown [100; 120; 90; 110] = Metrics.Fin d
       /\ -1 < d /\ d <= 0.
Proof.
  assert (H1 : [100; 120; 90; 110] <> (@nil Q)) by discriminate.
  assert (H2 : forall v, In v [100; 120; 90; 110] -> 0 < v).
  { intros v [<-|[<-|[<-|[<-|[]]]]]; reflexivity. }
  split; [exact H1|split; [exact H2|]].
  exact (proj2 max_drawdown_range [100; 120; 90; 110] H1 H2).
Defined.

(** X20.  For a non-empty series of positive values the maximum drawdown is
    zero exactly when the series never falls: every value is at least every
    earlier value. *)
Theorem max_drawdown_zero_iff_never_falls :
  forall portfolio_values : list Q,
    portfolio_values <> [] ->
    (forall v, In v portfolio_values -> 0 < v) ->
    exists d : Q,
      Metrics.calculate_max_drawdown portfolio_values = Metrics.Fin d
      /\ (d == 0 <->
          forall i j a b, (i <= j)%nat ->
            nth_error portfolio_values i = Some a ->
            nth_error portfolio_values j = Some b ->
            a <= b).
Proof.
  intros [|v0 vs] Hne Hpos; [contradiction|].
  destruct (max_drawdown_range_aux v0 vs Hpos) as [d [Hd [_ [_ Hiff]]]].
  exists d. now split.
Qed.

Lemma max_drawdown_zero_iff_never_falls_witness :
  [100; 100; 105] <> []
  /\ (forall v, In v [100; 100; 105] -> 0 < v)
  /\ exists d : Q,
       Metrics.calculate_max_drawdown [100; 100; 105] = Metrics.Fin d.
Proof.
  assert (H1 : [100; 100; 105] <> (@nil Q)) by discriminate.
  assert (H2 : forall v, In v [100; 100; 105] -> 0 < v).
  { intros v [<-|[<-|[<-|[]]]]; reflexivity. }
  split; [exact H1|split; [exact H2|]].
  destruct (max_drawdown_zero_iff_never_falls [100; 100; 105] H1 H2) as [d [Hd _]].
  exists d. exact Hd.
Defined.

(* ================================================================= *)
(** ** Performance metrics: Calmar ratio                             *)
(* ================================================================= *)

Lemma mean_nonempty (r : list Q) :
  r <> [] ->
  Metrics.mean r = Metrics.Fin (Np.sum r / Np.of_nat (List.length r))
  /\ 0 < Np.of_nat (List.length r).
Proof.
  destruct r as [|v r]; [contradiction|]. intros _. split; [reflexivity|].
  apply of_nat_pos. simpl. lia.
Qed.

Lemma gt0_mean (r : list Q) :
  Metrics.gt0 (Metrics.mean r) = true <-> r <> [] /\ 0 < Np.sum r.
Proof.
  destruct r as [|v r].
  - simpl. split; [discriminate|]. intros [H _]. contradiction.
  - destruct (mean_nonempty (v :: r) ltac:(discriminate)) as [Hm Hn].
    rewrite Hm. cbn [Metrics.gt0]. rewrite Qltb_lt. split.
    + intro H. split; [discriminate|].
      destruct (Qlt_le_dec 0 (Np.sum (v :: r))) as [|Hle]; [assumption|].
      exfalso.
      assert (Np.sum (v :: r) / Np.of_nat (List.length (v :: r)) <= 0)
        by (apply Qle_shift_div_r; [assumption|lra]).
      lra.
    + intros [_ H]. apply Qlt_shift_div_l; [assumption|lra].
Qed.

Lemma calmar_finite_aux (r : list Q) (q af : Q) :
  r <> [] -> ~ q == 0 ->
  Metrics.calculate_calmar_ratio r (Metrics.Fin q) af
  = Metrics.Fin (Np.sum r / Np.of_nat (List.length r) * af / Qabs q)
  /\ 0 < Qabs q.
Proof.
  intros Hr Hq.
  assert (HA : 0 < Qabs q).
  { pose proof (Qabs_nonneg q).
    destruct (Qlt_le_dec 0 (Qabs q)) as [|Hle]; [assumption|].
    exfalso. apply Hq. assert (E : Qabs q == 0) by lra.
    destruct (Qlt_le_dec q 0) as [Hneg|Hpos].
    - rewrite Qabs_neg in E by lra. lra.
    - rewrite Qabs_pos in E by assumption. exact E. }
  split; [|exact HA].
  unfold Metrics.calculate_calmar_ratio. cbn [Metrics.eq0].
  destruct (Qeq_bool q 0) eqn:E; [apply Qeq_bool_iff in E; contradiction|].
  destruct (mean_nonempty r Hr) as [Hm _]. rewrite Hm.
  cbn [Metrics.mul_scalar Metrics.fabs Metrics.fdiv].
  apply div_finite. lra.
Qed.

(** X21.  With a finite non-zero maximum drawdown, a non-empty return series
    and a positive annualisation factor, the Calmar ratio is the finite
    number mean return times the factor over the absolute drawdown; it is
    positive exactly when the returns sum to a positive number, and it does
    not depend on the sign with which the drawdown is passed. *)
Theorem calmar_ratio_finite :
  forall (portfolio_returns : list Q) (max_drawdown annualization_factor : Q),
    portfolio_returns <> [] -> ~ max_drawdown == 0 -> 0 < annualization_factor ->
    exists c c' : Q,
      Metrics.calculate_calmar_ratio portfolio_returns
        (Metrics.Fin max_drawdown) annualization_factor = Metrics.Fin c
      /\ c == Np.sum portfolio_returns
              / Np.of_nat (List.length portfolio_returns)
              * annualization_factor / Qabs max_drawdown
      /\ (0 < c <-> 0 < Np.sum portfolio_returns)
      /\ Metrics.calculate_calmar_ratio portfolio_returns
           (Metrics.Fin (- max_drawdown)) annualization_factor = Metrics.Fin c'
      /\ c' == c.
Proof.
  intros r q af Hr Hq Haf.
  destruct (calmar_finite_aux r q af Hr Hq) as [Hc HA].
  assert (Hq' : ~ - q == 0) by (intro H; apply Hq; lra).
  destruct (calmar_finite_aux r (- q) af Hr Hq') as [Hc' _].
  destruct (mean_nonempty r Hr) as [_ Hn].
  do 2 eexists. split; [exact Hc|]. split; [reflexivity|].
  split; [|split; [exact Hc'|]].
  - set (s := Np.sum r) in *. set (n := Np.of_nat (List.length r)) in *.
    set (A := Qabs q) in *.
    assert (HK : 0 < af / (n * A)).
    { apply Qlt_shift_div_l; [|lra].
      apply Qmult_lt_0_compat; assumption. }
    setoid_replace (s / n * af / A) with (s * (af / (n * A)))
      by (field; split; lra).
    split; intro H; nra.
  - rewrite Qabs_opp. reflexivity.
Qed.

Lemma calmar_ratio_finite_witness :
  [1 # 100; -1 # 200; 2 # 100] <> []
  /\ ~ (-1 # 4) == 0 /\ 0 < 252
  /\ exists c c' : Q,
       Metrics.calculate_calmar_ratio [1 # 100; -1 # 200; 2 # 100]
         (Metrics.Fin (-1 # 4)) 252 = Metrics.Fin c
       /\ c == Np.sum [1 # 100; -1 # 200; 2 # 100]
               / Np.of_nat (List.length [1 # 100; -1 # 200; 2 # 100])
               * 252 / Qabs (-1 # 4)
       /\ (0 < c <-> 0 < Np.sum [1 # 100; -1 # 200; 2 # 100])
       /\ Metrics.calculate_calmar_ratio [1 # 100; -1 # 200; 2 # 100]
            (Metrics.Fin (- (-1 # 4))) 252 = Metrics.Fin c'
       /\ c' == c.
Proof.
  assert (H1 : [1 # 100; -1 # 200; 2 # 100] <> (@nil Q)) by discriminate.
  assert (H2 : ~ (-1 # 4) == 0) by discriminate.
  assert (H3 : 0 < 252) by reflexivity.
  split; [exact H1|split; [exact H2|split; [exact H3|]]].
  exact (calmar_ratio_finite [1 # 100; -1 # 200; 2 # 100] (-1 # 4) 252 H1 H2 H3).
Defined.

(** X22.  For a non-empty series of positive values that never falls, the
    Calmar ratio computed from its maximum drawdown is never a finite
    number: it is [inf] when the return series is non-empty with a positive
    sum, and NaN otherwise. *)
Theorem calmar_of_never_falling_series :
  forall (portfolio_values portfolio_returns : list Q) (annualization_factor : Q),
    portfolio_values <> [] ->
    (forall v, In v portfolio_values -> 0 < v) ->
    (forall i j a b, (i <= j)%nat ->
       nth_error portfolio_values i = Some a ->
       nth_error portfolio_values j = Some b -> a <= b) ->
    let calmar :=
      Metrics.calculate_calmar_ratio portfolio_returns
        (Metrics.calculate_max_drawdown portfolio_values) annualization_factor in
    (portfolio_returns <> [] /\ 0 < Np.sum portfolio_returns ->
       calmar = Metrics.PosInf)
    /\ (~ (portfolio_returns <> [] /\ 0 < Np.sum portfolio_returns) ->
          calmar = Metrics.NaN).
Proof.
  intros values r af Hne Hpos Hmono calmar. subst calmar.
  destruct values as [|v0 vs]; [contradiction|].
  destruct (max_drawdown_range_aux v0 vs Hpos) as [d [Hd [_ [_ Hiff]]]].
  apply Hiff in Hmono. rewrite Hd.
  unfold Metrics.calculate_calmar_ratio. cbn [Metrics.eq0].
  apply Qeq_bool_iff in Hmono. rewrite Hmono.
  split; intro H.
  - apply gt0_mean in H. now rewrite H.
  - destruct (Metrics.gt0 (Metrics.mean r)) eqn:E; [|reflexivity].
    apply gt0_mean in E. contradiction.
Qed.

Lemma calmar_of_never_falling_series_witness :
  [100; 100; 105] <> []
  /\ (forall v, In v [100; 100; 105] -> 0 < v)
  /\ Metrics.calculate_calmar_ratio [0; 5 # 100]
       (Metrics.calculate_max_drawdown [100; 100; 105]) 252 = Metrics.PosInf.
Proof.
  assert (H1 : [100; 100; 105] <> (@nil Q)) by discriminate.
  assert (H2 : forall v, In v [100; 100; 105] -> 0 < v).
  { intros v [<-|[<-|[<-|[]]]]; reflexivity. }
  assert (H3 : forall i j a b, (i <= j)%nat ->
            nth_error [100; 100; 105] i = Some a ->
            nth_error [100; 100; 105] j = Some b -> a <= b).
  { intros i j a b Hij Ha Hb.
    destruct i as [|[|[|i]]]; try (destruct i; discriminate Ha);
      destruct j as [|[|[|j]]]; try (destruct j; discriminate Hb);
      try lia; inversion Ha; inversion Hb; subst; discriminate. }
  assert (H4 : [0; 5 # 100] <> (@nil Q) /\ 0 < Np.sum [0; 5 # 100])
    by (split; [discriminate|reflexivity]).
  split; [exact H1|split; [exact H2|]].
  exact (proj1 (calmar_of_never_falling_series [100; 100; 105] [0; 5 # 100] 252
                  H1 H2 H3) H4).
Defined.

(* ================================================================= *)
(** ** Backtester: the first date of a run                           *)
(* ================================================================= *)

Lemma total_zero_holdings (index : list string) (prices : Backtester.Series) :
  Backtester.total index (Backtester.mul Backtester.zeros prices) == 0.
Proof.
  unfold Backtester.total, Backtester.values.
  induction index as [|s index IH]; simpl; [reflexivity|].
  rewrite IH. unfold Backtester.mul, Backtester.zeros. ring.
Qed.

Lemma abs_diff_from_zero (index : list string) (w : Backtester.Series) :
  Np.sum (map Qabs (Np.zip_with Qminus (Backtester.values index w)
                      (Backtester.values index Backtester.zeros)))
  == Np.sum (map (fun s => Qabs (w s)) index).
Proof.
  unfold Backtester.values.
  induction index as [|s index IH]; cbn [map Np.zip_with Np.sum]; [reflexivity|].
  rewrite IH. unfold Backtester.zeros at 1.
  setoid_replace (w s - 0) with (w s) by ring. reflexivity.
Qed.

(** X23.  On the first date of a run (no holdings, previous weights all
    zero) the pre-trade portfolio value is the initial capital and the trade
    cost is charged on the whole target allocation: absolute capital times
    the sum of the absolute target weights times the sum of the two rates. *)
Theorem first_date_cost :
  forall (universe : list string) (self : Backtester.Config) (row : Backtester.Row),
    let r := Backtester.process_date universe self
               (Backtester.initial_state self) row in
    Backtester.value_before r == Backtester.initial_capital self
    /\ Backtester.cost r
       == Qabs (Backtester.initial_capital self)
          * Np.sum (map (fun s => Qabs (Backtester.target_weights row s)) universe)
          * (Backtester.transaction_cost_rate self + Backtester.slippage_rate self).
Proof.
  intros universe self row r.
  assert (Hv : Backtester.value_before r == Backtester.initial_capital self).
  { change (Backtester.value_before r)
      with (Backtester.total universe
              (Backtester.mul Backtester.zeros (Backtester.current_prices row))
            + Backtester.initial_capital self).
    rewrite total_zero_holdings. ring. }
  split; [exact Hv|].
  change (Backtester.cost r)
    with (Backtester._calculate_trade_cost self
            (Backtester.values universe Backtester.zeros)
            (Backtester.values universe (Backtester.target_weights row))
            (Backtester.value_before r)).
  unfold Backtester._calculate_trade_cost.
  rewrite abs_diff_scaled, abs_diff_from_zero, Hv. reflexivity.
Qed.

(* ================================================================= *)
(** ** The run: configuration errors                                 *)
(* ================================================================= *)



Section RunFacts.

Import PortfolioOptimizer.

Variable minimize :
  objective -> list Q -> option (list (Q * Q)) -> cons_value ->
  Py.outcome OptimizeResult.




End RunFacts.


